(** * A shallow embedding of the file organizer of DreEleventh/CLI-File-Organizer

    The development follows [src/organizer.py]: the category resolver
    [FileOrganizer.get_category], the collision-free namer
    [get_unique_filename], the filters [matches_pattern] and
    [check_file_size], the transfer loop [organize_files], the ledger
    ([operations_log], [save_undo_log]), [undo_operations],
    [load_config], the constructor and the command-line entry point
    [main]; and the simpler organizer of [src/main.py].

    Modelling choices.
    - A Python [str] is the Rocq string of its UTF-8 bytes; iterating a
      [str] gives its code points ([utf8_chars]).
    - A path is the list of its components (an absolute path after
      [Path.resolve]); [Path(s)] and [p / s] parse the string, dropping empty
      and ["."] components and taking [".."] lexically (there are no symbolic
      links in the model).
    - The filesystem is a finite map from paths to nodes (stdpp's [gmap]);
      the root directory is implicit.
    - JSON documents are an inductive type; the bytes of a file are
      abstracted by what reading them as UTF-8 and [json.load] give: a
      document, text that is not JSON, or bytes that are not UTF-8
      ([contents]).
    - Python exceptions are a result type; a computation in the program's
      monad keeps the state reached when it raises, as Python does.
    - [re.search] and [str.lower] are parameters ([pylib]): a
      regular-expression engine and Unicode case mapping are outside the
      program.
    - [datetime.now()] reads a clock held in the state; each call takes
      the next reading.
    - A directory listing ([iterdir], [rglob]) is what the operating system
      returns, or the exception it raises. *)

From Stdlib Require Import Ascii String.
From stdpp Require Import base gmap list strings pretty.

#[local] Set Warnings "-register-all".
Open Scope string_scope.

(* ================================================================= *)
(** ** JSON values and Python exceptions *)

Inductive json : Type :=
| JNull
| JBool (b : bool)
| JNum (z : Z)
| JStr (s : string)
| JArr (l : list json)
| JObj (kvs : list (string * json)).

(** The Python exceptions the program can raise or catch. *)
Inductive exn : Type :=
| FileNotFoundError
| NotADirectoryError
| FileExistsError
| IsADirectoryError
| DirectoryNotEmpty       (* OSError ENOTEMPTY *)
| InvalidArgument         (* OSError EINVAL *)
| ShutilError             (* shutil.Error *)
| SameFileError           (* shutil.SameFileError *)
| KeyError
| TypeError
| AttributeError
| JSONDecodeError
| UnicodeDecodeError
| PermissionError.        (* OSError EACCES *)

Inductive res (A : Type) : Type :=
| Ok (a : A)
| Exc (e : exn).
Arguments Ok {A} a.
Arguments Exc {A} e.

(** [dict] semantics of a decoded JSON object: keys in order of first
    appearance, the last value of a duplicated key wins. *)
Fixpoint dict_set (d : list (string * json)) (k : string) (v : json)
  : list (string * json) :=
  match d with
  | [] => [(k, v)]
  | (k', v') :: d' => if String.eqb k k' then (k, v) :: d' else (k', v') :: dict_set d' k v
  end.

Definition dict_items (kvs : list (string * json)) : list (string * json) :=
  fold_left (fun d '(k, v) => dict_set d k v) kvs [].

Fixpoint dict_get (d : list (string * json)) (k : string) : option json :=
  match d with
  | [] => None
  | (k', v) :: d' => if String.eqb k k' then Some v else dict_get d' k
  end.

(* ================================================================= *)
(** ** Strings *)

(** The parts of Python's library the program calls that the model leaves
    abstract: [re.search(pattern, s, re.IGNORECASE)], where [Some b] tells
    whether it found a match and [None] that the pattern is not a valid
    regular expression ([re.error]); and [str.lower]. *)
Record pylib := mkPylib {
  re_search : string -> string -> option bool;
  str_lower : string -> string
}.

(** [str.lower] on ASCII letters: what Python computes on ASCII strings,
    used for the concrete inputs. *)
Definition lower_char (c : ascii) : ascii :=
  let n := nat_of_ascii c in
  if Nat.leb 65 n && Nat.leb n 90 then ascii_of_nat (n + 32) else c.

Fixpoint ascii_lower (s : string) : string :=
  match s with
  | EmptyString => EmptyString
  | String c s' => String (lower_char c) (ascii_lower s')
  end.

(** A UTF-8 continuation byte (10xxxxxx). *)
Definition is_continuation (c : ascii) : bool :=
  let n := nat_of_ascii c in Nat.leb 128 n && Nat.ltb n 192.

Definition starts_with_continuation (s : string) : bool :=
  match s with
  | String c _ => is_continuation c
  | EmptyString => false
  end.

(** [list(s)]: the code points of a [str], each as a one-character string
    (its UTF-8 bytes). *)
Fixpoint utf8_chars (s : string) : list string :=
  match s with
  | EmptyString => []
  | String c s' =>
      match utf8_chars s' with
      | w :: ws => if starts_with_continuation w then String c w :: ws
                   else String c EmptyString :: w :: ws
      | [] => [String c EmptyString]
      end
  end.

Example utf8_chars_ex :
  utf8_chars "ab" = ["a"; "b"] /\
  utf8_chars (String (ascii_of_nat 195) (String (ascii_of_nat 137) "x")) =
    [String (ascii_of_nat 195) (String (ascii_of_nat 137) EmptyString); "x"].
Proof. split; reflexivity. Qed.

(** [s.split("/")]. *)
Fixpoint split_slash (s : string) : list string :=
  match s with
  | EmptyString => [""]
  | String c s' =>
      if Ascii.eqb c "/" then "" :: split_slash s'
      else match split_slash s' with
           | [] => [String c ""]
           | w :: ws => String c w :: ws
           end
  end.

Fixpoint has_char (c : ascii) (s : string) : bool :=
  match s with
  | EmptyString => false
  | String c' s' => Ascii.eqb c c' || has_char c s'
  end.

(** [s.rfind(".")], [None] for [-1]. *)
Fixpoint rfind_dot (s : string) : option nat :=
  match s with
  | EmptyString => None
  | String c s' =>
      match rfind_dot s' with
      | Some i => Some (S i)
      | None => if Ascii.eqb c "." then Some 0 else None
      end
  end.

(* ================================================================= *)
(** ** Paths ([pathlib.PurePosixPath]) *)

Abbreviation path := (list string) (only parsing).

(** One component of a parsed path: [""] and ["."] vanish, [".."] goes up. *)
Definition push_comp (p : path) (c : string) : path :=
  if String.eqb c "" then p
  else if String.eqb c "." then p
  else if String.eqb c ".." then removelast p
  else (p ++ [c])%list.

(** [base / s]: an absolute [s] replaces [base]. *)
Definition path_join (base : path) (s : string) : path :=
  match split_slash s with
  | "" :: cs => fold_left push_comp cs []
  | cs => fold_left push_comp cs base
  end.

(** [Path(s)] for the absolute paths the program stores. *)
Definition path_of_string (s : string) : path := path_join [] s.

Fixpoint join_comps (p : path) : string :=
  match p with
  | [] => ""
  | [c] => c
  | c :: p' => c ++ "/" ++ join_comps p'
  end.

(** [str(p)] *)
Definition string_of_path (p : path) : string := "/" ++ join_comps p.

(** [p.name] and [p.parent] *)
Definition name_of (p : path) : string := List.last p "".
Definition parent_of (p : path) : path := removelast p.

(** [p.suffix] and [p.stem]: the part from the last dot, when that dot is
    neither the first nor the last character of the name. *)
Definition has_suffix (name : string) : option nat :=
  match rfind_dot name with
  | Some i => if Nat.ltb 0 i && Nat.ltb i (String.length name - 1) then Some i else None
  | None => None
  end.

Definition suffix_of (name : string) : string :=
  match has_suffix name with
  | Some i => substring i (String.length name - i) name
  | None => ""
  end.

Definition stem_of (name : string) : string :=
  match has_suffix name with
  | Some i => substring 0 i name
  | None => name
  end.

Example suffix_of_ex : suffix_of "a.txt" = ".txt" /\ stem_of "a.txt" = "a"
  /\ suffix_of ".bashrc" = "" /\ suffix_of "x.tar.gz" = ".gz" /\ stem_of "x." = "x.".
Proof. repeat split; reflexivity. Qed.

Example path_of_string_ex :
  path_of_string "/s/./b//c/../d" = ["s"; "b"; "d"] /\
  path_join ["d"] "Images" = ["d"; "Images"] /\
  path_join ["d"; "e"] ".." = ["d"] /\
  string_of_path ["s"; "a.txt"] = "/s/a.txt".
Proof. repeat split; reflexivity. Qed.

(* ================================================================= *)
(** ** Category table and [get_category] *)

(** [self.file_types]: the JSON value it holds (a [dict] for the default
    table, whatever [json.load] returned after [load_config]). *)
Definition table_json (t : list (string * list string)) : json :=
  JObj (map (fun '(c, es) => (c, JArr (map JStr es))) t).

(** [DEFAULT_FILE_TYPES] *)
Definition DEFAULT_FILE_TYPES : list (string * list string) := [
  ("Images", [".jpg"; ".jpeg"; ".png"; ".gif"; ".bmp"; ".svg"; ".webp"; ".tiff"; ".ico"]);
  ("Documents", [".pdf"; ".docx"; ".txt"; ".rtf"; ".odt"; ".pages"; ".doc"]);
  ("Videos", [".mp4"; ".mov"; ".avi"; ".mkv"; ".wmv"; ".flv"; ".webm"; ".m4v"]);
  ("Audio", [".mp3"; ".wav"; ".flac"; ".aac"; ".ogg"; ".wma"; ".m4a"]);
  ("Archives", [".zip"; ".tar.gz"; ".rar"; ".7z"; ".tar"; ".gz"; ".bz2"]);
  ("Code", [".py"; ".js"; ".html"; ".css"; ".java"; ".cpp"; ".c"; ".h"; ".php"; ".rb"]);
  ("Spreadsheets", [".xlsx"; ".xls"; ".csv"; ".ods"; ".numbers"]);
  ("Presentations", [".pptx"; ".ppt"; ".odp"; ".key"]);
  ("Executables", [".exe"; ".msi"; ".dmg"; ".pkg"; ".deb"; ".rpm"; ".app"]);
  ("Fonts", [".ttf"; ".otf"; ".woff"; ".woff2"; ".eot"])].

Section Category.

Variable str_lower : string -> string.

(** [[e.lower() for e in extensions]]: iterating a list gives its items, a
    string its characters, a dict its keys; [e.lower()] needs a string. *)
Fixpoint lower_all (l : list json) : res (list string) :=
  match l with
  | [] => Ok []
  | JStr e :: l' => match lower_all l' with Ok r => Ok (str_lower e :: r) | Exc x => Exc x end
  | _ :: _ => Exc AttributeError
  end.

Definition lowered_extensions (extensions : json) : res (list string) :=
  match extensions with
  | JArr l => lower_all l
  | JStr s => Ok (map str_lower (utf8_chars s))
  | JObj kvs => Ok (map (fun kv => str_lower kv.1) (dict_items kvs))
  | _ => Exc TypeError
  end.

Fixpoint first_category (ext_lower : string) (items : list (string * json)) : res string :=
  match items with
  | [] => Ok "Other"
  | (category, extensions) :: rest =>
      match lowered_extensions extensions with
      | Exc x => Exc x
      | Ok l => if existsb (String.eqb ext_lower) l then Ok category
                else first_category ext_lower rest
      end
  end.

(** [FileOrganizer.get_category] *)
Definition get_category (file_types : json) (file_extension : string) : res string :=
  let ext_lower := str_lower file_extension in
  match file_types with
  | JObj kvs => first_category ext_lower (dict_items kvs)
  | _ => Exc AttributeError   (* .items() of a non-dict *)
  end.

End Category.

Example get_category_ex :
  get_category ascii_lower (table_json DEFAULT_FILE_TYPES) ".JPG" = Ok "Images" /\
  get_category ascii_lower (table_json DEFAULT_FILE_TYPES) ".gz" = Ok "Archives" /\
  get_category ascii_lower (table_json DEFAULT_FILE_TYPES) "" = Ok "Other".
Proof. repeat split; vm_compute; reflexivity. Qed.

(* ================================================================= *)
(** ** The filesystem *)

(** What [open(p, encoding='utf-8')] and [json.load] make of a file's
    bytes. *)
Inductive contents : Type :=
| JsonText (j : json)     (* UTF-8 text of a JSON document *)
| OtherText               (* UTF-8 text that is not JSON *)
| NotUtf8.                (* bytes that are not UTF-8 *)

Record fdata := mkFile {
  fid : nat;                (* identity of the contents *)
  fsize : nat;              (* st_size *)
  fcontent : contents
}.

Inductive node : Type :=
| File (d : fdata)
| Dir.

(** The root directory is always there. *)
Definition kind (fs : gmap path node) (p : path) : option node :=
  match p with
  | [] => Some Dir
  | _ => fs !! p
  end.

(** [Path.exists], [Path.is_dir], [Path.is_file] *)
Definition path_exists (fs : gmap path node) (p : path) : bool :=
  match kind fs p with Some _ => true | None => false end.
Definition is_dir (fs : gmap path node) (p : path) : bool :=
  match kind fs p with Some Dir => true | _ => false end.
Definition is_file (fs : gmap path node) (p : path) : bool :=
  match kind fs p with Some (File _) => true | _ => false end.

(** Resolution of the directories leading to a path: a missing one gives
    ENOENT, a file used as a directory ENOTDIR. *)
Fixpoint walk_dirs (fs : gmap path node) (acc : path) (cs : list string) : res unit :=
  match cs with
  | [] => Ok tt
  | c :: cs' =>
      let q := (acc ++ [c])%list in
      match fs !! q with
      | Some Dir => walk_dirs fs q cs'
      | Some (File _) => Exc NotADirectoryError
      | None => Exc FileNotFoundError
      end
  end.

Definition walk_parent (fs : gmap path node) (p : path) : res unit :=
  walk_dirs fs [] (removelast p).

(* ================================================================= *)
(** ** The program's state and its monad *)

(** What the program prints or logs. *)
Inductive event : Type :=
| EvDryRun (action : string) (src dst : path)           (* [Dry Run] Would ... *)
| EvTransferred (operation : string) (src dst : path) (category : string)
| EvError (msg : string)                                (* logger.error *)
| EvWarning (msg : string)                              (* logger.warning *)
| EvInfo (msg : string)                                 (* logger.info *)
| EvUndoDry (destination source : json)                 (* [Dry Run] Would undo ... *)
| EvUndone (destination source : path)
| EvRemovedCopy (destination : path).

Record state := mkState {
  st_fs : gmap path node;
  st_types : json;            (* self.file_types *)
  st_ops : list json;         (* self.operations_log *)
  st_out : list event;        (* stdout and the log *)
  st_clock : nat -> string;   (* the next readings of datetime.now().isoformat() *)
  st_processed : nat;         (* files_processed, a local of organize_files *)
  st_moved : nat              (* files_moved, a local of organize_files *)
}.

Definition set_fs (fs : gmap path node) (s : state) : state :=
  mkState fs (st_types s) (st_ops s) (st_out s) (st_clock s) (st_processed s) (st_moved s).
Definition set_types (t : json) (s : state) : state :=
  mkState (st_fs s) t (st_ops s) (st_out s) (st_clock s) (st_processed s) (st_moved s).
Definition set_ops (l : list json) (s : state) : state :=
  mkState (st_fs s) (st_types s) l (st_out s) (st_clock s) (st_processed s) (st_moved s).
Definition set_out (o : list event) (s : state) : state :=
  mkState (st_fs s) (st_types s) (st_ops s) o (st_clock s) (st_processed s) (st_moved s).
Definition set_counters (n m : nat) (s : state) : state :=
  mkState (st_fs s) (st_types s) (st_ops s) (st_out s) (st_clock s) n m.
Definition set_clock (c : nat -> string) (s : state) : state :=
  mkState (st_fs s) (st_types s) (st_ops s) (st_out s) c (st_processed s) (st_moved s).

Definition M (A : Type) : Type := state -> res A * state.

Definition ret {A} (a : A) : M A := fun s => (Ok a, s).
Definition raise {A} (e : exn) : M A := fun s => (Exc e, s).
Definition bind {A B} (m : M A) (k : A -> M B) : M B := fun s =>
  match m s with
  | (Ok a, s') => k a s'
  | (Exc e, s') => (Exc e, s')
  end.
(** [try: m except ...: h e]; the handler decides which exceptions it
    catches and re-raises the others. *)
Definition try_except {A} (m : M A) (h : exn -> M A) : M A := fun s =>
  match m s with
  | (Ok a, s') => (Ok a, s')
  | (Exc e, s') => h e s'
  end.

Notation "'let*' x := m 'in' k" := (bind m (fun x => k))
  (at level 200, x name, m at level 100, k at level 200).

Definition gets {A} (f : state -> A) : M A := fun s => (Ok (f s), s).
Definition modify (f : state -> state) : M unit := fun s => (Ok tt, f s).
Definition emit (e : event) : M unit := modify (fun s => set_out (st_out s ++ [e])%list s).
Definition lift_res {A} (r : res A) : M A := fun s => (r, s).

(** [datetime.now().isoformat()] *)
Definition now_iso : M string := fun s =>
  (Ok (st_clock s 0), set_clock (fun n => st_clock s (S n)) s).

(* ================================================================= *)
(** ** Filesystem operations *)

Definition get_fs : M (gmap path node) := gets st_fs.
Definition put_fs (fs : gmap path node) : M unit := modify (set_fs fs).

(** [os.mkdir(p)] *)
Definition os_mkdir (p : path) : M unit :=
  let* fs := get_fs in
  match p with
  | [] => raise FileExistsError
  | _ =>
      match walk_parent fs p with
      | Exc e => raise e
      | Ok _ =>
          match fs !! p with
          | Some _ => raise FileExistsError
          | None => put_fs (<[p := Dir]> fs)
          end
      end
  end.

(** The [except OSError] branch of [Path.mkdir] with [exist_ok=True]. *)
Definition exist_ok_or_raise (p : path) (e : exn) : M unit :=
  let* fs := get_fs in
  if is_dir fs p then ret tt else raise e.

(** [Path(p).mkdir(parents=False, exist_ok=True)] *)
Definition mkdir_once (p : path) : M unit :=
  try_except (os_mkdir p) (fun e =>
    match e with
    | FileNotFoundError => raise e
    | _ => exist_ok_or_raise p e
    end).

(** [Path(rev rp).mkdir(parents=True, exist_ok=True)]: on ENOENT the parent
    is created first, then the path itself. *)
Fixpoint mkdir_parents_rev (rp : list string) : M unit :=
  try_except (os_mkdir (rev rp)) (fun e =>
    match e with
    | FileNotFoundError =>
        match rp with
        | [] => raise e                                   (* self.parent == self *)
        | _ :: rq => let* _ := mkdir_parents_rev rq in mkdir_once (rev rp)
        end
    | _ => exist_ok_or_raise (rev rp) e
    end).

Definition path_mkdir (p : path) : M unit := mkdir_parents_rev (rev p).

(** Moving a directory re-roots every entry below it. *)
Definition reroot (src dst k : path) : path :=
  if bool_decide (src `prefix_of` k) then (dst ++ drop (length src) k)%list else k.

Definition rename_tree (src dst : path) (fs : gmap path node) : gmap path node :=
  list_to_map (map (fun kv => (reroot src dst kv.1, kv.2)) (map_to_list fs)).

Definition has_children (fs : gmap path node) (p : path) : bool :=
  existsb (fun kv => bool_decide (p `prefix_of` kv.1 /\ p <> kv.1)) (map_to_list fs).

(** [os.rename(src, dst)] *)
Definition os_rename (src dst : path) : M unit :=
  let* fs := get_fs in
  match walk_parent fs src, kind fs src with
  | Exc e, _ => raise e
  | Ok _, None => raise FileNotFoundError
  | Ok _, Some n =>
      match walk_parent fs dst with
      | Exc e => raise e
      | Ok _ =>
          if bool_decide (src = dst) then ret tt else
          match n with
          | File d =>
              match kind fs dst with
              | Some Dir => raise IsADirectoryError
              | _ => put_fs (<[dst := File d]> (delete src fs))
              end
          | Dir =>
              if bool_decide (src = [] \/ src `prefix_of` dst) then raise InvalidArgument else
              match kind fs dst with
              | Some (File _) => raise NotADirectoryError
              | Some Dir => if has_children fs dst then raise DirectoryNotEmpty
                            else put_fs (rename_tree src dst (delete dst fs))
              | None => put_fs (rename_tree src dst fs)
              end
          end
      end
  end.

(** [shutil.move(src, dst)] on one filesystem: into [dst] when it is a
    directory, then [os.rename].  (When the rename fails, shutil's copy
    fallback fails for the same reason on a single filesystem.) *)
Definition shutil_move (src dst : path) : M unit :=
  let* fs := get_fs in
  if is_dir fs dst then
    if bool_decide (src = dst) then os_rename src dst else
    let real_dst := (dst ++ [name_of src])%list in
    if path_exists fs real_dst then raise ShutilError else os_rename src real_dst
  else os_rename src dst.

(** [shutil.copy2(src, dst)] *)
Definition shutil_copy2 (src dst : path) : M unit :=
  let* fs := get_fs in
  let dst' := if is_dir fs dst then (dst ++ [name_of src])%list else dst in
  if bool_decide (src = dst') && path_exists fs src then raise SameFileError else
  match walk_parent fs src, kind fs src with
  | Exc e, _ => raise e
  | Ok _, None => raise FileNotFoundError
  | Ok _, Some Dir => raise IsADirectoryError
  | Ok _, Some (File d) =>
      match walk_parent fs dst' with
      | Exc e => raise e
      | Ok _ =>
          match kind fs dst' with
          | Some Dir => raise IsADirectoryError
          | _ => put_fs (<[dst' := File d]> fs)
          end
      end
  end.

(** [Path(p).unlink()] *)
Definition path_unlink (p : path) : M unit :=
  let* fs := get_fs in
  match walk_parent fs p with
  | Exc e => raise e
  | Ok _ =>
      match kind fs p with
      | None => raise FileNotFoundError
      | Some Dir => raise IsADirectoryError
      | Some (File _) => put_fs (delete p fs)
      end
  end.

(* ================================================================= *)
(** ** [get_unique_filename] *)

(** [parent / f"{stem}_{counter}{suffix}"] *)
Definition unique_name (target_path : path) (counter : nat) : string :=
  stem_of (name_of target_path) ++ "_" ++ pretty counter ++ suffix_of (name_of target_path).

Definition unique_candidate (target_path : path) (counter : nat) : path :=
  path_join (parent_of target_path) (unique_name target_path counter).

(** The [while True] loop from [counter]; the fuel is never exhausted
    (see [get_unique_filename_spec]): among the first [size fs + 1]
    candidates one is free. *)
Fixpoint probe (fs : gmap path node) (target_path : path) (counter fuel : nat) : path :=
  match fuel with
  | 0 => unique_candidate target_path counter
  | S fuel' =>
      if path_exists fs (unique_candidate target_path counter)
      then probe fs target_path (S counter) fuel'
      else unique_candidate target_path counter
  end.

(** [FileOrganizer.get_unique_filename] *)
Definition get_unique_filename (fs : gmap path node) (target_path : path) : path :=
  if negb (path_exists fs target_path) then target_path
  else probe fs target_path 1 (size fs).

Definition ex_file (i : nat) : node := File (mkFile i 10 OtherText).

Example get_unique_filename_ex :
  let fs := <[["d"] := Dir]> (<[["d"; "a.txt"] := ex_file 1]> (<[["d"; "a_1.txt"] := ex_file 2]> ∅)) in
  get_unique_filename fs ["d"; "a.txt"] = ["d"; "a_2.txt"] /\
  get_unique_filename fs ["d"; "b.txt"] = ["d"; "b.txt"] /\
  get_unique_filename (delete ["d"; "a_1.txt"] fs) ["d"; "a.txt"] = ["d"; "a_1.txt"].
Proof. vm_compute. repeat split. Qed.

(* ================================================================= *)
(** ** Filters and the transfer loop *)

(** The keyword options of [organize_files]. *)
Record options := mkOptions {
  dry_run : bool;
  recursive : bool;
  copy_files : bool;
  pattern : option string;
  exclude_pattern : option string;
  min_size : option Z;
  max_size : option Z
}.

(** A Python string is truthy when it is not empty. *)
Definition truthy (o : option string) : bool :=
  match o with
  | Some p => negb (String.eqb p "")
  | None => false
  end.

(** [st_size] of a directory (ext4 block). *)
Definition dir_st_size : nat := 4096.

(** [FileOrganizer.check_file_size]: a failing [stat] counts as passing. *)
Definition check_file_size (fs : gmap path node) (file_path : path)
    (min_size max_size : option Z) : bool :=
  match walk_parent fs file_path, kind fs file_path with
  | Ok _, Some n =>
      let file_size := Z.of_nat (match n with File d => fsize d | Dir => dir_st_size end) in
      (match min_size with Some m => negb (file_size <? m)%Z | None => true end) &&
      (match max_size with Some m => negb (m <? file_size)%Z | None => true end)
  | _, _ => true
  end.

(** A ledger entry of [self.operations_log]. *)
Definition record_json (timestamp operation : string) (source destination : path)
    (category : string) : json :=
  JObj [("timestamp", JStr timestamp); ("operation", JStr operation);
        ("source", JStr (string_of_path source));
        ("destination", JStr (string_of_path destination));
        ("category", JStr category)].

Definition bump_processed : M unit :=
  modify (fun s => set_counters (S (st_processed s)) (st_moved s) s).
Definition bump_moved : M unit :=
  modify (fun s => set_counters (st_processed s) (S (st_moved s)) s).
Definition append_op (r : json) : M unit :=
  modify (fun s => set_ops (st_ops s ++ [r])%list s).

Section Organize.

Variable py : pylib.

(** [FileOrganizer.matches_pattern] *)
Definition matches_pattern (filename : string) (pattern : option string) : M bool :=
  match pattern with
  | None => ret true
  | Some pat =>
      if String.eqb pat "" then ret true else
      match re_search py pat filename with
      | Some b => ret b
      | None => let* _ := emit (EvWarning ("Invalid regex pattern: " ++ pat)) in ret true
      end
  end.

(** The body of the [try] block for one [file_path]. *)
Definition process_file (dest_path : path) (o : options) (file_path : path) : M unit :=
  let name := name_of file_path in
  let* included := matches_pattern name (pattern o) in
  if negb included then ret tt else
  let* excluded := (if truthy (exclude_pattern o)
                    then matches_pattern name (exclude_pattern o) else ret false) in
  if excluded then ret tt else
  let* fs := get_fs in
  if negb (check_file_size fs file_path (min_size o) (max_size o)) then ret tt else
  let* _ := bump_processed in
  let file_extension := suffix_of name in
  let* types := gets st_types in
  let* file_category := lift_res (get_category (str_lower py) types file_extension) in
  let target_dir := path_join dest_path file_category in
  let* fs := get_fs in
  let target_file := get_unique_filename fs (path_join target_dir name) in
  if dry_run o then
    emit (EvDryRun (if copy_files o then "copy" else "move") file_path target_file)
  else
    let* _ := path_mkdir target_dir in
    let* _ := (if copy_files o then shutil_copy2 file_path target_file
               else shutil_move file_path target_file) in
    let* now := now_iso in
    let* _ := append_op (record_json now (if copy_files o then "copy" else "move")
                           file_path target_file file_category) in
    let* _ := bump_moved in
    emit (EvTransferred (if copy_files o then "copied" else "moved")
            file_path target_file file_category).

(** [try: ... except Exception as e: self.logger.error(...)] *)
Definition process_or_log (dest_path : path) (o : options) (file_path : path) : M unit :=
  try_except (process_file dest_path o file_path)
    (fun _ => emit (EvError ("Error processing " ++ string_of_path file_path))).

(** [for file_path in files: ...] *)
Fixpoint organize_loop (dest_path : path) (o : options) (files : list path) : M unit :=
  match files with
  | [] => ret tt
  | file_path :: rest =>
      let* _ := process_or_log dest_path o file_path in
      organize_loop dest_path o rest
  end.

(** [FileOrganizer.organize_files] on resolved paths.  [listing] is what
    the list comprehension over [iterdir] (or [rglob]) gives: the files in
    the order the operating system lists them ([listing_ok] below says what
    it contains), or the exception the listing raises ([iterdir] on an
    unreadable directory raises PermissionError). *)
Definition organize_files (src_path dest_path : path) (o : options) (listing : res (list path))
  : M (nat * nat) :=
  let* fs := get_fs in
  if negb (path_exists fs src_path) then raise FileNotFoundError else
  if negb (is_dir fs src_path) then raise NotADirectoryError else
  let* files := lift_res listing in
  let* _ := emit (EvInfo "Found files to process") in
  let* _ := modify (set_counters 0 0) in
  let* _ := organize_loop dest_path o files in
  gets (fun s => (st_processed s, st_moved s)).

End Organize.

(** The files [iterdir] (children) or [rglob("*")] (descendants) list
    under [src], each once. *)
Definition listed_under (src p : path) (recursive : bool) : Prop :=
  if recursive then src `prefix_of` p /\ src <> p
  else exists c, p = (src ++ [c])%list.

Definition listing_ok (fs : gmap path node) (src : path) (recursive : bool)
    (files : list path) : Prop :=
  NoDup files /\
  forall p, p ∈ files <-> is_file fs p = true /\ listed_under src p recursive.

(* ================================================================= *)
(** ** The ledger and [undo_operations] *)

(** The document [save_undo_log] writes with [json.dump]; reading it back
    with [json.load] gives the same value. *)
Definition ledger_document (timestamp : string) (ops : list json) : json :=
  JObj [("session_info", JObj [("timestamp", JStr timestamp);
                               ("total_operations", JNum (Z.of_nat (length ops)))]);
        ("operations", JArr ops)].

(** [open(p, encoding='utf-8')] followed by [json.load]: bytes that are
    not UTF-8 raise UnicodeDecodeError while the text is read. *)
Definition read_json_file (fs : gmap path node) (p : path) : res json :=
  match walk_parent fs p with
  | Exc e => Exc e
  | Ok _ =>
      match kind fs p with
      | None => Exc FileNotFoundError
      | Some Dir => Exc IsADirectoryError
      | Some (File d) =>
          match fcontent d with
          | JsonText j => Ok j
          | OtherText => Exc JSONDecodeError
          | NotUtf8 => Exc UnicodeDecodeError
          end
      end
  end.

(** [operation[k]] *)
Definition json_get (j : json) (k : string) : res json :=
  match j with
  | JObj kvs => match dict_get (dict_items kvs) k with Some v => Ok v | None => Exc KeyError end
  | _ => Exc TypeError
  end.

(** [log_data.get(k, default)] *)
Definition json_get_default (j : json) (k : string) (default : json) : res json :=
  match j with
  | JObj kvs => Ok (match dict_get (dict_items kvs) k with Some v => v | None => default end)
  | _ => Exc AttributeError
  end.

(** [reversed(v)]: lists, strings (their code points) and dicts (their keys). *)
Definition py_reversed (v : json) : res (list json) :=
  match v with
  | JArr l => Ok (rev l)
  | JStr s => Ok (rev (map JStr (utf8_chars s)))
  | JObj kvs => Ok (rev (map (fun kv => JStr kv.1) (dict_items kvs)))
  | _ => Exc TypeError
  end.

(** [Path(v)] *)
Definition py_path (v : json) : res path :=
  match v with
  | JStr s => Ok (path_of_string s)
  | _ => Exc TypeError
  end.

(** [v == s] for a string [s]. *)
Definition json_is_str (v : json) (s : string) : bool :=
  match v with
  | JStr s' => String.eqb s' s
  | _ => false
  end.

(** The body of the inner [try] for one record; [true] when [undone_count]
    is incremented. *)
Definition undo_record (source destination op_type : json) : M bool :=
  if json_is_str op_type "move" then
    let* dst := lift_res (py_path destination) in
    let* fs := get_fs in
    if path_exists fs dst then
      let* src := lift_res (py_path source) in
      let* _ := path_mkdir (parent_of src) in
      let* _ := shutil_move dst src in
      let* _ := emit (EvUndone dst src) in
      ret true
    else ret false
  else if json_is_str op_type "copy" then
    let* dst := lift_res (py_path destination) in
    let* fs := get_fs in
    if path_exists fs dst then
      let* _ := path_unlink dst in
      let* _ := emit (EvRemovedCopy dst) in
      ret true
    else ret false
  else ret false.

(** [for operation in reversed(operations): ...] *)
Fixpoint undo_loop (dry_run : bool) (ops : list json) (undone_count : nat) : M nat :=
  match ops with
  | [] => ret undone_count
  | operation :: rest =>
      let* source := lift_res (json_get operation "source") in
      let* destination := lift_res (json_get operation "destination") in
      let* op_type := lift_res (json_get operation "operation") in
      if dry_run then
        let* _ := emit (EvUndoDry destination source) in
        undo_loop dry_run rest undone_count
      else
        let* counted := try_except (undo_record source destination op_type)
                          (fun _ => let* _ := emit (EvError "Error undoing operation") in
                                    ret false) in
        undo_loop dry_run rest (if counted then S undone_count else undone_count)
  end.

(** What follows [json.load] inside the outer [try]. *)
Definition undo_body (log_data : json) (dry_run : bool) : M nat :=
  let* operations := lift_res (json_get_default log_data "operations" (JArr [])) in
  let* ops := lift_res (py_reversed operations) in
  let* undone_count := undo_loop dry_run ops 0 in
  let* _ := (if dry_run then ret tt else emit (EvInfo "Undone operations")) in
  ret undone_count.

(** [except (FileNotFoundError, json.JSONDecodeError, KeyError)] *)
Definition undo_handler (e : exn) : M nat :=
  match e with
  | FileNotFoundError | JSONDecodeError | KeyError =>
      let* _ := emit (EvError "Error reading undo log") in ret 0
  | _ => raise e
  end.

(** [FileOrganizer.undo_operations] *)
Definition undo_operations (log_file : path) (dry_run : bool) : M nat :=
  try_except
    (let* fs := get_fs in
     let* log_data := lift_res (read_json_file fs log_file) in
     undo_body log_data dry_run)
    undo_handler.

(* ================================================================= *)
(** ** [load_config] *)

(** The classes named in an [except] clause. *)
Inductive except_class : Type :=
| CJSONDecoder          (* json.JSONDecoder: a decoder class, not an exception *)
| CJSONDecodeError
| CIOError              (* IOError is OSError *)
| CKeyError
| CFileNotFoundError.

Definition is_exception_class (c : except_class) : bool :=
  match c with
  | CJSONDecoder => false
  | _ => true
  end.

(** [isinstance(e, c)] *)
Definition exn_instance (e : exn) (c : except_class) : bool :=
  match c, e with
  | CJSONDecoder, _ => false
  | CJSONDecodeError, JSONDecodeError => true
  | CKeyError, KeyError => true
  | CFileNotFoundError, FileNotFoundError => true
  | CIOError, (FileNotFoundError | NotADirectoryError | FileExistsError | IsADirectoryError
              | DirectoryNotEmpty | InvalidArgument | ShutilError | SameFileError
              | PermissionError) => true
  | _, _ => false
  end.

(** Matching a raised exception against [except (c1, c2, ...)]: every
    class of the tuple must derive from BaseException, otherwise the
    matching itself raises TypeError ("catching classes that do not
    inherit from BaseException is not allowed"). *)
Definition except_tuple {A} (classes : list except_class) (handler : M A) (e : exn) : M A :=
  if forallb is_exception_class classes then
    if existsb (exn_instance e) classes then handler else raise e
  else raise TypeError.

(** [FileOrganizer.load_config] *)
Definition load_config (config_file : path) : M bool :=
  try_except
    (let* fs := get_fs in
     if path_exists fs config_file then
       let* j := lift_res (read_json_file fs config_file) in
       let* _ := modify (set_types j) in
       let* _ := emit (EvInfo "Loading configuration file") in
       ret true
     else
       let* _ := emit (EvWarning "Configuration file not found") in
       ret false)
    (except_tuple [CJSONDecoder; CIOError]
       (let* _ := emit (EvError "Error loading configuration") in ret false)).

(* ================================================================= *)
(** ** [save_undo_log] *)

(** [open(p, 'w')] followed by [json.dump(j, f)]: the file is created or
    truncated; [dump j] is the file [json.dump] leaves (its bytes are
    abstracted, as for every file of the model). *)
Definition write_json_file (dump : json -> fdata) (p : path) (j : json) : M unit :=
  let* fs := get_fs in
  match walk_parent fs p with
  | Exc e => raise e
  | Ok _ =>
      match kind fs p with
      | Some Dir => raise IsADirectoryError
      | _ => put_fs (<[p := File (dump j)]> fs)
      end
  end.

(** [FileOrganizer.save_undo_log]; the [logger.info] and the [print] of
    the success message are one event. *)
Definition save_undo_log (dump : json -> fdata) (log_file : path) : M unit :=
  let* operations_log := gets st_ops in
  match operations_log with
  | [] => ret tt
  | _ =>
      try_except
        (let* now := now_iso in
         let* _ := write_json_file dump log_file (ledger_document now operations_log) in
         emit (EvInfo "Undo log saved"))
        (except_tuple [CIOError] (emit (EvError "Error saving undo log")))
  end.

(* ================================================================= *)
(** ** [FileOrganizer.__init__] and [main] *)

(** Python truthiness of a JSON value. *)
Definition json_truthy (j : json) : bool :=
  match j with
  | JNull => false
  | JBool b => b
  | JNum z => negb (Z.eqb z 0)
  | JStr s => negb (String.eqb s "")
  | JArr l => match l with [] => false | _ => true end
  | JObj kvs => match kvs with [] => false | _ => true end
  end.

(** [FileOrganizer(file_type)]: [self.file_types = file_type or
    DEFAULT_FILE_TYPES.copy()] and an empty [operations_log]
    ([setup_logging] only configures the logger). *)
Definition init_organizer (file_type : option json) : M unit :=
  let file_types := match file_type with
                    | Some j => if json_truthy j then j else table_json DEFAULT_FILE_TYPES
                    | None => table_json DEFAULT_FILE_TYPES
                    end in
  modify (fun s => set_ops [] (set_types file_types s)).

(** What [parser.parse_args()] returns; [None] for an option not given.
    [--log-level] only configures the logger and is left out. *)
Record args := mkArgs {
  arg_source : option string;
  arg_dest : string;              (* default "organized" *)
  arg_dry_run : bool;
  arg_copy : bool;
  arg_recursive : bool;
  arg_pattern : option string;
  arg_exclude : option string;
  arg_min_size : option Z;
  arg_max_size : option Z;
  arg_config : option string;
  arg_save_log : option string;
  arg_undo : option string
}.

(** How [main] ends: [return None], [return n], or [parser.error], which
    raises [SystemExit(2)].  An exception of the monad escapes [main]. *)
Inductive main_result : Type :=
| ReturnNone
| ReturnCode (n : nat)
| ParserExit.

(** The string of an option already known to be truthy. *)
Definition opt_str (o : option string) : string :=
  match o with Some s => s | None => "" end.

(** [main] after [parse_args]: relative paths are taken from the working
    directory [cwd] ([Path.resolve] and [open]), [listing] is the listing
    [organize_files] obtains.  [KeyboardInterrupt] is not modelled. *)
Definition main (py : pylib) (dump : json -> fdata)
    (cwd : path) (listing : res (list path)) (args : args) : M main_result :=
  if truthy (arg_undo args) then
    let* _ := init_organizer None in
    let* count := undo_operations (path_join cwd (opt_str (arg_undo args))) (arg_dry_run args) in
    let* _ := emit (EvInfo ((if arg_dry_run args then "Would undo " else "Undone ")
                            ++ pretty count ++ " operations")) in
    ret ReturnNone
  else if negb (truthy (arg_source args)) then ret ParserExit
  else
    let* _ := init_organizer None in
    let* _ := (if truthy (arg_config args)
               then let* _ := load_config (path_join cwd (opt_str (arg_config args))) in ret tt
               else ret tt) in
    try_except
      (let options := mkOptions (arg_dry_run args) (arg_recursive args) (arg_copy args)
                        (arg_pattern args) (arg_exclude args)
                        (arg_min_size args) (arg_max_size args) in
       let* r := organize_files py (path_join cwd (opt_str (arg_source args)))
                   (path_join cwd (arg_dest args)) options listing in
       let '(files_processed, files_moved) := r in
       if arg_dry_run args then
         let* _ := emit (EvInfo ("[Dry Run] Found " ++ pretty files_processed
                                 ++ " files that would be organized")) in
         ret (ReturnCode 0)
       else
         let* _ := emit (EvInfo "Organization complete!") in
         let* _ := emit (EvInfo ("Files processed: " ++ pretty files_processed)) in
         let* _ := emit (EvInfo ("Files " ++ (if arg_copy args then "copied" else "moved")
                                 ++ ": " ++ pretty files_moved)) in
         let* _ := (if truthy (arg_save_log args) && Nat.ltb 0 files_moved
                    then save_undo_log dump (path_join cwd (opt_str (arg_save_log args)))
                    else ret tt) in
         ret (ReturnCode 0))
      (fun e => match e with
                | FileNotFoundError | NotADirectoryError =>
                    let* _ := emit (EvError "Error") in ret (ReturnCode 1)
                | _ =>
                    let* _ := emit (EvError "Unexpected error") in ret (ReturnCode 1)
                end).

(* ================================================================= *)
(** ** The first version, [src/main.py] *)

Module MainPy.

(** [FILE_TYPES] *)
Definition FILE_TYPES : list (string * list string) := [
  ("Images", [".jpg"; ".jpeg"; ".png"; ".gif"; ".bmp"; ".svg"; ".webp"]);
  ("Documents", [".pdf"; ".docx"; ".txt"; ".rtf"; ".odt"; ".pages"]);
  ("Videos", [".mp4"; ".mov"; ".avi"; ".mkv"; ".wmv"; ".flv"]);
  ("Audio", [".mp3"; ".wav"; ".flac"; ".aac"; ".ogg"]);
  ("Archives", [".zip"; ".tar.gz"; ".rar"; ".7z"; ".tar"; ".gz"]);
  ("Code", [".py"; ".js"; ".html"; ".css"; ".java"; ".cpp"; ".c"]);
  ("Spreadsheets", [".xlsx"; ".xls"; ".csv"; ".ods"]);
  ("Presentations", [".pptx"; ".ppt"; ".odp"])].

(** [next((cat for cat, exts in FILE_TYPES.items() if ext in exts), "Other")] *)
Definition category_of (ext : string) : string :=
  match List.find (fun ce => existsb (String.eqb ext) ce.2) FILE_TYPES with
  | Some ce => ce.1
  | None => "Other"
  end.

Section WithLower.

Variable str_lower : string -> string.

(** The body of [for file in src_path.iterdir()] for one entry; the
    [is_file] test is made when the entry's turn comes. *)
Definition organize_entry (dest_path : path) (dry_run : bool) (file : path) : M unit :=
  let* fs := get_fs in
  if negb (is_file fs file) then ret tt else
  let ext := str_lower (suffix_of (name_of file)) in
  let category := category_of ext in
  let target_dir := path_join dest_path category in
  let target_file := path_join target_dir (name_of file) in
  if dry_run then emit (EvDryRun "move" file target_file)
  else
    let* _ := path_mkdir target_dir in
    let* _ := shutil_move file target_file in
    emit (EvTransferred "Move" file target_file category).

Fixpoint organize_loop (dest_path : path) (dry_run : bool) (entries : list path) : M unit :=
  match entries with
  | [] => ret tt
  | file :: rest =>
      let* _ := organize_entry dest_path dry_run file in
      organize_loop dest_path dry_run rest
  end.

(** [organize(src, dest, dry_run)]; [entries] is what [iterdir] lists, or
    the exception it raises when the loop starts. *)
Definition organize (src_path dest_path : path) (dry_run : bool) (entries : res (list path))
  : M unit :=
  let* fs := get_fs in
  if negb (path_exists fs src_path) then raise FileNotFoundError else
  if negb (is_dir fs src_path) then raise NotADirectoryError else
  let* es := lift_res entries in
  organize_loop dest_path dry_run es.

End WithLower.

End MainPy.

(* ================================================================= *)
(** * Properties *)

(** The category the spec describes: the first entry of the table whose
    extensions contain the lowered extension, else ["Other"]. *)
Definition category_of_table (str_lower : string -> string) (t : list (string * list string))
    (ext_lower : string) : string :=
  match List.find (fun ce => existsb (fun e => String.eqb ext_lower (str_lower e)) ce.2) t with
  | Some ce => ce.1
  | None => "Other"
  end.

Section Lemmas.

Variable str_lower : string -> string.

Lemma dict_set_fresh (d : list (string * json)) k v :
  k ∉ d.*1 -> dict_set d k v = (d ++ [(k, v)])%list.
Proof.
  induction d as [|[k' v'] d IH]; simpl; intros Hn; [done|].
  destruct (String.eqb_spec k k') as [->|Hne].
  - exfalso. apply Hn. left.
  - rewrite IH; [done|]. intros Hin. apply Hn. right. exact Hin.
Qed.

Lemma dict_items_nodup_aux (kvs d : list (string * json)) :
  NoDup (d ++ kvs)%list.*1 ->
  fold_left (fun d '(k, v) => dict_set d k v) kvs d = (d ++ kvs)%list.
Proof.
  revert d. induction kvs as [|[k v] kvs IH]; intros d Hnd; simpl.
  - by rewrite app_nil_r.
  - rewrite dict_set_fresh.
    + rewrite IH; [by rewrite <- app_assoc|]. by rewrite <- app_assoc.
    + rewrite fmap_app in Hnd. simpl in Hnd.
      apply NoDup_app in Hnd as (_ & Hdis & _). intros Hin.
      eapply Hdis; [exact Hin|left].
Qed.

Lemma dict_items_nodup (kvs : list (string * json)) :
  NoDup kvs.*1 -> dict_items kvs = kvs.
Proof. intros H. unfold dict_items. by rewrite dict_items_nodup_aux. Qed.

Lemma existsb_map_lower (el : string) (es : list string) :
  existsb (String.eqb el) (map str_lower es) = existsb (fun e => String.eqb el (str_lower e)) es.
Proof. induction es as [|e es IH]; simpl; [done|]. by rewrite IH. Qed.

Lemma lower_all_strs (es : list string) :
  lower_all str_lower (map JStr es) = Ok (map str_lower es).
Proof. induction es as [|e es IH]; simpl; [done|]. by rewrite IH. Qed.

Lemma first_category_table (t : list (string * list string)) el :
  first_category str_lower el (map (fun '(c, es) => (c, JArr (map JStr es))) t) =
  Ok (category_of_table str_lower t el).
Proof.
  unfold category_of_table.
  induction t as [|[c es] t IH]; simpl; [done|].
  rewrite lower_all_strs, existsb_map_lower.
  destruct (existsb _ es); [done|]. exact IH.
Qed.

Lemma table_json_keys (t : list (string * list string)) :
  (map (fun '(c, es) => (c, JArr (map JStr es))) t).*1 = t.*1.
Proof. induction t as [|[c es] t IH]; simpl; [done|]. f_equal. exact IH. Qed.

End Lemmas.

(** ** C8: the structural preconditions of [organize_files] *)

(** C8. When the source path does not exist, [organize_files] raises
    FileNotFoundError; when it exists but is not a directory it raises
    NotADirectoryError.  In both cases the state is returned untouched:
    no filesystem change, no ledger entry, no counters. *)
Theorem organize_files_preconditions re src dest o files (s : state) :
  (path_exists (st_fs s) src = false ->
   organize_files re src dest o files s = (Exc FileNotFoundError, s)) /\
  (path_exists (st_fs s) src = true -> is_dir (st_fs s) src = false ->
   organize_files re src dest o files s = (Exc NotADirectoryError, s)).
Proof.
  unfold organize_files, bind, get_fs, gets; simpl.
  split; intros H; [|intros H']; rewrite ?H, ?H'; reflexivity.
Qed.

(** ** C4: [get_category] *)

(** C4. For a category table (a dict from category names to lists of
    extension strings, as [DEFAULT_FILE_TYPES]) and whatever [str.lower]
    computes, [get_category] is a pure function that never raises: it
    returns the first category in table order whose lowered extensions
    contain the lowered input, or ["Other"]; two inputs with the same
    lowercase form (".JPG" and ".jpg") get the same category. *)
Theorem get_category_total_first_match (str_lower : string -> string)
    (t : list (string * list string)) (ext : string) :
  NoDup t.*1 ->
  get_category str_lower (table_json t) ext = Ok (category_of_table str_lower t (str_lower ext)) /\
  forall ext', str_lower ext' = str_lower ext ->
    get_category str_lower (table_json t) ext' = get_category str_lower (table_json t) ext.
Proof.
  intros Hnd. unfold get_category, table_json.
  rewrite dict_items_nodup by (by rewrite table_json_keys).
  split.
  - apply first_category_table.
  - intros ext' Heq. by rewrite Heq.
Qed.

(** On ASCII strings [str.lower] is [ascii_lower]. *)
Lemma get_category_total_first_match_witness :
  NoDup (DEFAULT_FILE_TYPES.*1) /\
  get_category ascii_lower (table_json DEFAULT_FILE_TYPES) ".JPG" = Ok "Images" /\
  get_category ascii_lower (table_json DEFAULT_FILE_TYPES) ".JPG" =
  get_category ascii_lower (table_json DEFAULT_FILE_TYPES) ".jpg".
Proof.
  assert (Hnd : NoDup (DEFAULT_FILE_TYPES.*1)) by (vm_compute; repeat constructor; set_solver).
  split; [exact Hnd|]. split.
  - rewrite (proj1 (get_category_total_first_match ascii_lower DEFAULT_FILE_TYPES ".JPG" Hnd)).
    vm_compute. reflexivity.
  - symmetry. apply (proj2 (get_category_total_first_match ascii_lower DEFAULT_FILE_TYPES ".jpg" Hnd)).
    vm_compute. reflexivity.
Defined.

(** ** Concrete inputs *)

(** A stand-in for [re.search(pattern, s, re.IGNORECASE)] on the patterns of
    the examples: a pattern with unbalanced parentheses is rejected, as
    [re] rejects ["("]; any other pattern is searched for literally,
    ignoring case. *)
Fixpoint parens_ok (s : string) (depth : nat) : bool :=
  match s with
  | EmptyString => Nat.eqb depth 0
  | String c s' =>
      if Ascii.eqb c "(" then parens_ok s' (S depth)
      else if Ascii.eqb c ")" then
        match depth with 0 => false | S d => parens_ok s' d end
      else parens_ok s' depth
  end.

Fixpoint is_prefix (p s : string) : bool :=
  match p, s with
  | EmptyString, _ => true
  | String c p', String c' s' => Ascii.eqb c c' && is_prefix p' s'
  | _, _ => false
  end.

Fixpoint contains (p s : string) : bool :=
  match s with
  | EmptyString => is_prefix p s
  | String _ s' => is_prefix p s || contains p s'
  end.

Definition literal_search (pat s : string) : option bool :=
  if parens_ok pat 0 then Some (contains (ascii_lower pat) (ascii_lower s)) else None.

(** The library of the examples, whose strings are ASCII. *)
Definition re_literal : pylib := mkPylib literal_search ascii_lower.

Definition ex_state (fs : gmap path node) : state :=
  mkState fs (table_json DEFAULT_FILE_TYPES) [] [] (fun n => "2026-01-01T00:00:" ++ pretty (10 + n)) 0 0.

(** A [json.dump] whose file reads back as the document. *)
Definition dump_ex (j : json) : fdata := mkFile 7 100 (JsonText j).

Definition no_filters (dry copy recursive : bool) : options :=
  mkOptions dry recursive copy None None None None.

(** C8 witness. *)
Lemma organize_files_preconditions_witness :
  let s := ex_state (<[["f"] := ex_file 1]> ∅) in
  (path_exists (st_fs s) ["missing"] = false /\
   organize_files re_literal ["missing"] ["d"] (no_filters false false false) (Ok []) s
   = (Exc FileNotFoundError, s)) /\
  (path_exists (st_fs s) ["f"] = true /\ is_dir (st_fs s) ["f"] = false /\
   organize_files re_literal ["f"] ["d"] (no_filters false false false) (Ok []) s
   = (Exc NotADirectoryError, s)).
Proof.
  intros s. split.
  - assert (H : path_exists (st_fs s) ["missing"] = false) by (vm_compute; reflexivity).
    split; [exact H|]. exact (proj1 (organize_files_preconditions re_literal _ _ _ _ s) H).
  - assert (H1 : path_exists (st_fs s) ["f"] = true) by (vm_compute; reflexivity).
    assert (H2 : is_dir (st_fs s) ["f"] = false) by (vm_compute; reflexivity).
    split; [exact H1|]. split; [exact H2|].
    exact (proj2 (organize_files_preconditions re_literal _ _ _ _ s) H1 H2).
Defined.

(** ** C9: [load_config] on a file it cannot load *)

(** C9 (code bug). The handler of [load_config] names [json.JSONDecoder],
    which is not an exception class, so matching any exception against it
    raises TypeError: a configuration file that exists but cannot be read or
    parsed makes [load_config] raise TypeError instead of returning False. *)
Theorem load_config_failure_raises_type_error (config_file : path) (s : state) :
  path_exists (st_fs s) config_file = true ->
  (forall j, read_json_file (st_fs s) config_file <> Ok j) ->
  load_config config_file s = (Exc TypeError, s).
Proof.
  intros Hex Hfail. unfold load_config, try_except, bind, get_fs, gets; simpl.
  rewrite Hex. unfold lift_res.
  destruct (read_json_file (st_fs s) config_file) as [j|e] eqn:Hr.
  - exfalso. exact (Hfail j eq_refl).
  - reflexivity.
Qed.

Lemma load_config_failure_raises_type_error_witness :
  let s := ex_state (<[["config.json"] := File (mkFile 7 12 OtherText)]> ∅) in
  path_exists (st_fs s) ["config.json"] = true /\
  load_config ["config.json"] s = (Exc TypeError, s).
Proof.
  intros s. assert (H : path_exists (st_fs s) ["config.json"] = true) by (vm_compute; reflexivity).
  split; [exact H|]. apply load_config_failure_raises_type_error; [exact H|].
  vm_compute. intros j Hj. discriminate Hj.
Defined.

(** ** C7: an invalid exclude pattern *)

(** C7 (code bug). With no include pattern and an exclude pattern that is
    not a valid regular expression, [matches_pattern] answers True for the
    exclude test, so the file is skipped: it is neither counted nor
    transferred, and only the warning is logged. *)
Theorem invalid_exclude_pattern_skips_file re dest o file_path pat (s : state) :
  pattern o = None -> exclude_pattern o = Some pat -> pat <> "" ->
  re_search re pat (name_of file_path) = None ->
  process_file re dest o file_path s =
  (Ok tt, set_out (st_out s ++ [EvWarning ("Invalid regex pattern: " ++ pat)])%list s).
Proof.
  intros Hp Hx Hne Hre.
  unfold process_file, matches_pattern, bind, ret, truthy, emit, modify.
  rewrite Hp, Hx, Hre. simpl.
  destruct (String.eqb_spec pat "") as [->|_]; [congruence|]. reflexivity.
Qed.

Lemma invalid_exclude_pattern_skips_file_witness :
  let o := mkOptions false false false None (Some "(") None None in
  let s := ex_state (<[["s"] := Dir]> (<[["s"; "a.txt"] := ex_file 1]> ∅)) in
  re_search re_literal "(" "a.txt" = None /\
  process_file re_literal ["d"] o ["s"; "a.txt"] s =
  (Ok tt, set_out (st_out s ++ [EvWarning ("Invalid regex pattern: " ++ "(")])%list s) /\
  organize_files re_literal ["s"] ["d"] o (Ok [["s"; "a.txt"]]) s =
  (Ok (0, 0), set_counters 0 0 (set_out (st_out s ++ [EvInfo "Found files to process";
                                  EvWarning ("Invalid regex pattern: " ++ "(")])%list s)).
Proof.
  intros o s. split; [vm_compute; reflexivity|]. split.
  - apply invalid_exclude_pattern_skips_file; try reflexivity. discriminate.
  - vm_compute. reflexivity.
Defined.

(** ** C10: [undo_operations] in dry-run mode *)

(** The line dry-run prints for a ledger record. *)
Definition undo_dry_event (op : json) : event :=
  match json_get op "destination", json_get op "source" with
  | Ok d, Ok src => EvUndoDry d src
  | _, _ => EvError "unreachable"
  end.

(** A ledger record with the three fields [undo_operations] reads. *)
Definition record_fields_ok (op : json) : Prop :=
  exists src dst t, json_get op "source" = Ok src /\
    json_get op "destination" = Ok dst /\ json_get op "operation" = Ok t.

Section UndoDry.

Lemma set_out_set_out (o1 o2 : list event) (s : state) :
  set_out o1 (set_out o2 s) = set_out o1 s.
Proof. by destruct s. Qed.

Lemma set_out_id (s : state) : set_out (st_out s) s = s.
Proof. by destruct s. Qed.

Lemma undo_loop_dry ops c (s : state) :
  (forall n, fst (undo_loop true ops c s) = Ok n -> n = c) /\
  st_fs (snd (undo_loop true ops c s)) = st_fs s /\
  st_ops (snd (undo_loop true ops c s)) = st_ops s.
Proof.
  revert s. induction ops as [|op ops IH]; intros s; simpl.
  - split; [|done]. intros n Hn. by injection Hn.
  - unfold bind, lift_res.
    destruct (json_get op "source"); [|simpl; split; [discriminate|done]].
    destruct (json_get op "destination"); [|simpl; split; [discriminate|done]].
    destruct (json_get op "operation"); [|simpl; split; [discriminate|done]].
    unfold emit, modify. exact (IH _).
Qed.

Lemma undo_loop_dry_out ops c (s : state) :
  Forall record_fields_ok ops ->
  undo_loop true ops c s = (Ok c, set_out (st_out s ++ map undo_dry_event ops)%list s).
Proof.
  revert s. induction ops as [|op ops IH]; intros s Hall; simpl.
  - by rewrite app_nil_r, set_out_id.
  - inversion Hall as [|? ? (src & dst & t & Hs & Hd & Ht) Hrest]; subst.
    unfold bind, lift_res. rewrite Hs, Hd, Ht. unfold emit, modify.
    rewrite IH by exact Hrest. simpl. rewrite set_out_set_out.
    unfold undo_dry_event. rewrite Hd, Hs. by rewrite <- app_assoc.
Qed.

End UndoDry.

(** X19. In dry-run mode [undo_operations] never increments its counter:
    whenever it returns, it returns 0, and it changes neither the filesystem
    nor the ledger.  For a log whose document is an object holding a list of
    ledger records with their three fields, it returns 0 after printing one
    intended undo per record, last record first, whether or not the
    destination still exists. *)
Theorem undo_dry_run_counts_nothing (log_file : path) (s : state) :
  ((forall n, fst (undo_operations log_file true s) = Ok n -> n = 0) /\
   st_fs (snd (undo_operations log_file true s)) = st_fs s /\
   st_ops (snd (undo_operations log_file true s)) = st_ops s) /\
  (forall kvs ops,
     read_json_file (st_fs s) log_file = Ok (JObj kvs) ->
     dict_get (dict_items kvs) "operations" = Some (JArr ops) ->
     Forall record_fields_ok ops ->
     undo_operations log_file true s =
     (Ok 0, set_out (st_out s ++ map undo_dry_event (rev ops))%list s)).
Proof.
  split.
  - unfold undo_operations, try_except, bind, get_fs, gets, lift_res; simpl.
    destruct (read_json_file (st_fs s) log_file) as [log_data|e].
    + unfold undo_body, bind, lift_res.
      destruct (json_get_default log_data "operations" (JArr [])) as [operations|e].
      2:{ unfold undo_handler, bind, emit, modify, ret, raise.
          destruct e; simpl; repeat split; try discriminate; intros n Hn; by injection Hn. }
      destruct (py_reversed operations) as [ops|e].
      2:{ unfold undo_handler, bind, emit, modify, ret, raise.
          destruct e; simpl; repeat split; try discriminate; intros n Hn; by injection Hn. }
      pose proof (undo_loop_dry ops 0 s) as (Hr & Hfs & Hops).
      destruct (undo_loop true ops 0 s) as [[n|e] s'] eqn:Hl; simpl in *.
      * unfold ret. simpl. repeat split; [|done|done]. intros m Hm. injection Hm as <-. by apply Hr.
      * unfold undo_handler, bind, emit, modify, ret, raise.
        destruct e; simpl; repeat split; try done; intros m Hm; by injection Hm.
    + unfold undo_handler, bind, emit, modify, ret, raise.
      destruct e; simpl; repeat split; try done; intros m Hm; by injection Hm.
  - intros kvs ops Hread Hops Hall.
    unfold undo_operations, try_except, bind, get_fs, gets, lift_res; simpl.
    rewrite Hread. unfold undo_body, bind, lift_res. simpl. rewrite Hops. simpl.
    rewrite undo_loop_dry_out by (by apply Forall_rev). reflexivity.
Qed.

Lemma undo_dry_run_counts_nothing_witness :
  let op := record_json "t" "move" ["s"; "a.txt"] ["d"; "Documents"; "a.txt"] "Documents" in
  let s := ex_state (<[["log.json"] := File (mkFile 9 100 (JsonText (ledger_document "t" [op])))]> ∅) in
  read_json_file (st_fs s) ["log.json"] =
    Ok (JObj [("session_info", JObj [("timestamp", JStr "t"); ("total_operations", JNum 1)]);
              ("operations", JArr [op])]) /\
  undo_operations ["log.json"] true s =
  (Ok 0, set_out (st_out s ++ [EvUndoDry (JStr "/d/Documents/a.txt") (JStr "/s/a.txt")])%list s) /\
  st_fs (snd (undo_operations ["log.json"] true s)) = st_fs s.
Proof.
  intros op s.
  assert (Hr : read_json_file (st_fs s) ["log.json"] =
    Ok (JObj [("session_info", JObj [("timestamp", JStr "t"); ("total_operations", JNum 1)]);
              ("operations", JArr [op])])) by (vm_compute; reflexivity).
  split; [exact Hr|]. split.
  - rewrite (proj2 (undo_dry_run_counts_nothing ["log.json"] s) _ [op] Hr).
    + vm_compute. reflexivity.
    + vm_compute. reflexivity.
    + constructor; [|constructor]. do 3 eexists. split; [vm_compute; reflexivity|].
      split; vm_compute; reflexivity.
  - exact (proj1 (proj2 (proj1 (undo_dry_run_counts_nothing ["log.json"] s)))).
Defined.

(** C10 (code bug). [undo_operations] does not return 0 for every log
    file in dry-run mode: when the log holds valid JSON that is not an
    object (a list, for instance), [log_data.get] raises AttributeError,
    which none of the handlers catches, so the call raises, in dry-run mode
    as in live mode, and leaves the state unchanged. *)
Theorem undo_non_object_log_raises log_file dry j (s : state) :
  read_json_file (st_fs s) log_file = Ok j -> (forall kvs, j <> JObj kvs) ->
  undo_operations log_file dry s = (Exc AttributeError, s).
Proof.
  intros Hr Hn. unfold undo_operations, try_except, bind, get_fs, gets, lift_res. cbn [fst snd].
  rewrite Hr. unfold undo_body, bind, lift_res.
  destruct j as [| | | | |kvs]; try reflexivity. by destruct (Hn kvs).
Qed.

Lemma undo_non_object_log_raises_witness :
  let s := ex_state (<[["log.json"] := File (mkFile 9 2 (JsonText (JArr [])))]> ∅) in
  read_json_file (st_fs s) ["log.json"] = Ok (JArr []) /\
  undo_operations ["log.json"] true s = (Exc AttributeError, s).
Proof.
  intros s. assert (Hr : read_json_file (st_fs s) ["log.json"] = Ok (JArr [])) by (vm_compute; reflexivity).
  split; [exact Hr|]. apply (undo_non_object_log_raises _ _ _ _ Hr). discriminate.
Defined.

(** ** Monad lemmas *)

Section MonadLemmas.

Lemma bind_ok {A B} (m : M A) (k : A -> M B) (s s' : state) (a : A) :
  m s = (Ok a, s') -> bind m k s = k a s'.
Proof. intros H. unfold bind. by rewrite H. Qed.

Lemma bind_exc {A B} (m : M A) (k : A -> M B) (s s' : state) (e : exn) :
  m s = (Exc e, s') -> bind m k s = (Exc e, s').
Proof. intros H. unfold bind. by rewrite H. Qed.

Lemma try_except_ok {A} (m : M A) h (s s' : state) (a : A) :
  m s = (Ok a, s') -> try_except m h s = (Ok a, s').
Proof. intros H. unfold try_except. by rewrite H. Qed.

Lemma try_except_exc {A} (m : M A) h (s s' : state) (e : exn) :
  m s = (Exc e, s') -> try_except m h s = h e s'.
Proof. intros H. unfold try_except. by rewrite H. Qed.

Lemma matches_pattern_shape re name p (s : state) :
  exists b w, matches_pattern re name p s = (Ok b, set_out (st_out s ++ w)%list s) /\
    forall ev, In ev w -> exists m, ev = EvWarning m.
Proof.
  unfold matches_pattern. destruct p as [pat|].
  - destruct (String.eqb pat ""); [exists true, []; rewrite app_nil_r, set_out_id; split; [done|intros ? []]|].
    destruct (re_search re pat name) as [b|].
    + exists b, []. rewrite app_nil_r, set_out_id. split; [done|intros ? []].
    + exists true, [EvWarning ("Invalid regex pattern: " ++ pat)]. split; [done|].
      intros ev [<-|[]]. eauto.
  - exists true, []. rewrite app_nil_r, set_out_id. split; [done|intros ? []].
Qed.

End MonadLemmas.

(** ** C6: dry-run *)

Section DryStep.

Variable str_lower : string -> string.

(** The target a dry run reports for [f]: [get_unique_filename] on the
    filesystem of state [s]. *)
Definition dry_target (s : state) (dest f t : path) : Prop :=
  exists cat, get_category str_lower (st_types s) (suffix_of (name_of f)) = Ok cat /\
    t = get_unique_filename (st_fs s) (path_join (path_join dest cat) (name_of f)).

(** What a step may change in dry-run mode: the output (with dry-run
    reports about [fs] only) and the processed counter. *)
Definition dry_step (dest : path) (files : list path) (s s' : state) : Prop :=
  st_fs s' = st_fs s /\ st_ops s' = st_ops s /\ st_types s' = st_types s /\
  st_moved s' = st_moved s /\
  exists w, st_out s' = (st_out s ++ w)%list /\
    forall a g t, In (EvDryRun a g t) w -> g ∈ files /\ dry_target s dest g t.

Lemma dry_step_refl dest files (s : state) : dry_step dest files s s.
Proof.
  repeat split. exists []. rewrite app_nil_r. split; [done|intros ? ? ? []].
Qed.

Lemma dry_step_trans dest files (s1 s2 s3 : state) :
  dry_step dest files s1 s2 -> dry_step dest files s2 s3 -> dry_step dest files s1 s3.
Proof.
  intros (H1 & H2 & H3 & H4 & w1 & Ho1 & Hw1) (G1 & G2 & G3 & G4 & w2 & Go2 & Hw2).
  repeat split; try congruence.
  exists (w1 ++ w2)%list. split; [by rewrite Go2, Ho1, app_assoc|].
  intros a g t Hin. apply in_app_or in Hin as [Hin|Hin]; [exact (Hw1 a g t Hin)|].
  destruct (Hw2 a g t Hin) as [Hg (cat & Hc & Ht)]. split; [done|].
  exists cat. rewrite <- H3, <- H1. done.
Qed.

Lemma dry_step_out dest files (s : state) w :
  (forall a g t, ~ In (EvDryRun a g t) w) ->
  dry_step dest files s (set_out (st_out s ++ w)%list s).
Proof.
  intros Hw. repeat split. exists w. split; [done|]. intros a g t Hin. by destruct (Hw a g t Hin).
Qed.

Lemma dry_step_counters dest files (s : state) n :
  dry_step dest files s (set_counters n (st_moved s) s).
Proof. repeat split. exists []. rewrite app_nil_r. split; [by destruct s|intros ? ? ? []]. Qed.

Lemma warnings_not_dry (w : list event) :
  (forall ev, In ev w -> exists m, ev = EvWarning m) ->
  forall a g t, ~ In (EvDryRun a g t) w.
Proof. intros Hw a g t Hin. destruct (Hw _ Hin) as [m Hm]. discriminate. Qed.

End DryStep.

Section Dry.

Variable re : pylib.

Lemma process_file_dry dest o files f (s : state) :
  dry_run o = true -> f ∈ files ->
  dry_step (str_lower re) dest files s (snd (process_file re dest o f s)).
Proof.
  intros Hdry Hf. unfold process_file.
  destruct (matches_pattern_shape re (name_of f) (pattern o) s) as (b1 & w1 & E1 & W1).
  rewrite (bind_ok _ _ _ _ _ E1).
  set (s1 := set_out (st_out s ++ w1)%list s).
  assert (D1 : dry_step (str_lower re) dest files s s1) by (apply dry_step_out, warnings_not_dry, W1).
  destruct b1; [|exact D1]. simpl.
  assert (Hx : exists b2 w2, (if truthy (exclude_pattern o)
                 then matches_pattern re (name_of f) (exclude_pattern o) else ret false) s1
               = (Ok b2, set_out (st_out s1 ++ w2)%list s1) /\
               forall ev, In ev w2 -> exists m, ev = EvWarning m).
  { destruct (truthy (exclude_pattern o)); [apply matches_pattern_shape|].
    exists false, []. rewrite app_nil_r, set_out_id. split; [done|intros ? []]. }
  destruct Hx as (b2 & w2 & E2 & W2).
  rewrite (bind_ok _ _ _ _ _ E2).
  set (s2 := set_out (st_out s1 ++ w2)%list s1).
  assert (D2 : dry_step (str_lower re) dest files s s2)
    by (eapply dry_step_trans; [exact D1|apply dry_step_out, warnings_not_dry, W2]).
  destruct b2; [exact D2|].
  unfold bind at 1, get_fs, gets. cbn [fst snd].
  destruct (check_file_size (st_fs s2) f (min_size o) (max_size o)); [|exact D2]. simpl.
  unfold bind at 1, bump_processed, modify. cbn [fst snd].
  set (s3 := set_counters (S (st_processed s2)) (st_moved s2) s2).
  assert (D3 : dry_step (str_lower re) dest files s s3) by (eapply dry_step_trans; [exact D2|apply dry_step_counters]).
  unfold bind at 1, gets. cbn [fst snd].
  unfold bind at 1, lift_res.
  destruct (get_category (str_lower re) (st_types s3) (suffix_of (name_of f))) as [cat|e] eqn:Hcat; [|exact D3].
  unfold bind at 1, get_fs, gets. cbn [fst snd]. rewrite Hdry.
  unfold emit, modify. cbn [snd].
  eapply dry_step_trans; [exact D3|].
  repeat split. eexists. split; [reflexivity|].
  intros a g t [Hin|[]]. injection Hin as <- <- <-. split; [exact Hf|].
  exists cat. split; [exact Hcat|reflexivity].
Qed.

Lemma process_or_log_dry dest o files f (s : state) :
  dry_run o = true -> f ∈ files ->
  dry_step (str_lower re) dest files s (snd (process_or_log re dest o f s)).
Proof.
  intros Hdry Hf. unfold process_or_log, try_except.
  pose proof (process_file_dry dest o files f s Hdry Hf) as D.
  destruct (process_file re dest o f s) as [[u|e] s'] eqn:E; [exact D|].
  unfold emit, modify. simpl in *. eapply dry_step_trans; [exact D|].
  apply dry_step_out. intros a g t [Hin|[]]. discriminate.
Qed.

Lemma organize_loop_dry dest o files (s : state) : forall todo,
  dry_run o = true -> (forall f, f ∈ todo -> f ∈ files) ->
  fst (organize_loop re dest o todo s) = Ok tt /\
  dry_step (str_lower re) dest files s (snd (organize_loop re dest o todo s)).
Proof.
  revert s. fix IH 2. intros s todo Hdry Hin. destruct todo as [|f rest]; simpl.
  - split; [done|apply dry_step_refl].
  - pose proof (process_or_log_dry dest o files f s Hdry (Hin f ltac:(left))) as D.
    assert (Hok : fst (process_or_log re dest o f s) = Ok tt).
    { unfold process_or_log, try_except.
      destruct (process_file re dest o f s) as [[[]|e] s'']; reflexivity. }
    destruct (process_or_log re dest o f s) as [r s1] eqn:E. simpl in Hok, D. subst r.
    rewrite (bind_ok _ _ _ _ _ E).
    destruct (IH s1 rest Hdry (fun g Hg => Hin g ltac:(by right))) as [Hr D'].
    split; [exact Hr|]. eapply dry_step_trans; [exact D|exact D'].
Qed.

End Dry.




Lemma is_file_lookup fs p : is_file fs p = true -> exists d, fs !! p = Some (File d).
Proof. unfold is_file, kind. destruct p; [done|]. destruct (fs !! _) as [[]|]; eauto; done. Qed.




(* ================================================================= *)
(** ** Creating directories *)

(** The nonempty prefixes of a path, shortest first: the directories
    [walk_dirs] goes through and [Path.mkdir(parents=True)] creates. *)
Fixpoint prefixes_from (acc : path) (cs : list string) : list path :=
  match cs with
  | [] => []
  | c :: cs' => (acc ++ [c])%list :: prefixes_from (acc ++ [c])%list cs'
  end.
Definition dir_prefixes (p : path) : list path := prefixes_from [] p.

(** No file lies where a directory of [p] is needed. *)
Definition no_file_on (fs : gmap path node) (p : path) : bool :=
  forallb (fun q => negb (is_file fs q)) (dir_prefixes p).
(** [fs] with a directory at every nonempty prefix of [p]. *)
Definition add_dirs (fs : gmap path node) (p : path) : gmap path node :=
  foldr (fun q m => <[q := Dir]> m) fs (dir_prefixes p).

Lemma prefixes_from_snoc acc cs c :
  prefixes_from acc (cs ++ [c]) = (prefixes_from acc cs ++ [acc ++ cs ++ [c]])%list.
Proof.
  revert acc. induction cs as [|c' cs IH]; intros acc; simpl; [done|].
  rewrite IH. by rewrite <- !app_assoc.
Qed.

Lemma prefixes_from_nonempty acc cs q : q ∈ prefixes_from acc cs -> q <> [].
Proof.
  revert acc. induction cs as [|c cs IH]; intros acc; simpl; [set_solver|].
  rewrite elem_of_cons. intros [->|H]; [|exact (IH _ H)]. destruct acc; discriminate.
Qed.

Lemma prefixes_from_length acc cs q : q ∈ prefixes_from acc cs -> length q <= length acc + length cs.
Proof.
  revert acc. induction cs as [|c cs IH]; intros acc; simpl; [set_solver|].
  rewrite elem_of_cons. intros [->|H].
  - rewrite length_app. simpl. lia.
  - specialize (IH _ H). rewrite length_app in IH. simpl in IH. lia.
Qed.

Lemma walk_dirs_all_dirs fs acc cs :
  (forall q, q ∈ prefixes_from acc cs -> fs !! q = Some Dir) -> walk_dirs fs acc cs = Ok tt.
Proof.
  revert acc. induction cs as [|c cs IH]; intros acc H; simpl; [done|].
  rewrite (H (acc ++ [c])%list) by (simpl; left). apply IH. intros q Hq. apply H. by right.
Qed.

Lemma walk_dirs_cases fs acc cs :
  (forall q, q ∈ prefixes_from acc cs -> is_file fs q = false) ->
  (walk_dirs fs acc cs = Ok tt /\ forall q, q ∈ prefixes_from acc cs -> fs !! q = Some Dir) \/
  walk_dirs fs acc cs = Exc FileNotFoundError.
Proof.
  revert acc. induction cs as [|c cs IH]; intros acc H; simpl.
  - left. split; [done|set_solver].
  - assert (Hq : is_file fs (acc ++ [c])%list = false) by (apply H; left).
    unfold is_file, kind in Hq. destruct (acc ++ [c])%list eqn:E; [destruct acc; discriminate|].
    rewrite <- E in Hq |- *.
    destruct (fs !! (acc ++ [c])%list) as [[d|]|] eqn:Hl; [discriminate| |by right].
    destruct (IH (acc ++ [c])%list) as [[Hw Hd]|Hw].
    + intros q Hq'. apply H. by right.
    + left. split; [done|]. intros q. rewrite elem_of_cons. intros [->|Hq']; [done|auto].
    + by right.
Qed.

Lemma add_dirs_lookup fs p q :
  add_dirs fs p !! q = if bool_decide (q ∈ dir_prefixes p) then Some Dir else fs !! q.
Proof.
  unfold add_dirs. induction (dir_prefixes p) as [|q0 l IH]; cbn [foldr].
  - by rewrite bool_decide_false by set_solver.
  - destruct (decide (q = q0)) as [->|Hne].
    + rewrite lookup_insert_eq. by rewrite bool_decide_true by set_solver.
    + rewrite lookup_insert_ne by congruence. rewrite IH.
      destruct (decide (q ∈ l)).
      * rewrite !bool_decide_true by set_solver. done.
      * rewrite !bool_decide_false by set_solver. done.
Qed.

Lemma set_fs_id (s : state) : set_fs (st_fs s) s = s.
Proof. by destruct s. Qed.
Lemma set_fs_set_fs f1 f2 (s : state) : set_fs f1 (set_fs f2 s) = set_fs f1 s.
Proof. by destruct s. Qed.

Lemma dir_prefixes_snoc pp c : dir_prefixes (pp ++ [c]) = (dir_prefixes pp ++ [pp ++ [c]])%list.
Proof. unfold dir_prefixes. by rewrite prefixes_from_snoc. Qed.

Lemma add_dirs_snoc fs pp c : add_dirs fs (pp ++ [c]) = <[(pp ++ [c])%list := Dir]> (add_dirs fs pp).
Proof.
  apply map_eq. intros q. rewrite add_dirs_lookup, dir_prefixes_snoc.
  destruct (decide (q = (pp ++ [c])%list)) as [->|Hne].
  - rewrite lookup_insert_eq. by rewrite bool_decide_true by set_solver.
  - rewrite lookup_insert_ne by congruence. rewrite add_dirs_lookup.
    destruct (decide (q ∈ dir_prefixes pp)).
    + rewrite !bool_decide_true by set_solver. done.
    + rewrite !bool_decide_false by set_solver. done.
Qed.

Lemma add_dirs_id fs p : (forall q, q ∈ dir_prefixes p -> fs !! q = Some Dir) -> add_dirs fs p = fs.
Proof.
  intros H. apply map_eq. intros q. rewrite add_dirs_lookup. case_bool_decide; [by rewrite H|done].
Qed.

Lemma no_file_on_spec fs p : no_file_on fs p = true <-> forall q, q ∈ dir_prefixes p -> is_file fs q = false.
Proof.
  unfold no_file_on. rewrite forallb_forall. split.
  - intros H q Hq. apply list_elem_of_In, H in Hq. by apply negb_true_iff in Hq.
  - intros H q Hq. apply list_elem_of_In, H in Hq. by rewrite Hq.
Qed.

Lemma os_mkdir_spec p (s : state) : p <> [] ->
  os_mkdir p s =
  match walk_parent (st_fs s) p with
  | Exc e => (Exc e, s)
  | Ok _ => match st_fs s !! p with
            | Some _ => (Exc FileExistsError, s)
            | None => (Ok tt, set_fs (<[p := Dir]> (st_fs s)) s)
            end
  end.
Proof.
  intros Hp. unfold os_mkdir, bind, get_fs, gets. cbn [fst snd].
  destruct p as [|c p']; [done|]. destruct (walk_parent _ _); [|done].
  by destruct (st_fs s !! _).
Qed.

Lemma snoc_ne (pp : list string) c : (pp ++ [c])%list <> [].
Proof. destruct pp; discriminate. Qed.

Lemma prefix_not_in_own_parent pp (c : string) : (pp ++ [c])%list ∉ dir_prefixes pp.
Proof.
  intros H. apply prefixes_from_length in H. rewrite length_app in H. simpl in H. lia.
Qed.

Lemma mkdir_once_spec p (s : state) : p <> [] ->
  walk_parent (st_fs s) p = Ok tt -> is_file (st_fs s) p = false ->
  mkdir_once p s = (Ok tt, set_fs (<[p := Dir]> (st_fs s)) s).
Proof.
  intros Hp Hw Hf. unfold mkdir_once, try_except. rewrite os_mkdir_spec by done. rewrite Hw.
  unfold is_file, kind in Hf. destruct p as [|c p']; [done|].
  destruct (st_fs s !! (c :: p')) as [[d|]|] eqn:E; [done| |done].
  unfold exist_ok_or_raise, bind, get_fs, gets, is_dir, kind. cbn [fst snd]. rewrite E.
  by rewrite insert_id, set_fs_id.
Qed.

Lemma is_file_add_dirs fs pp p : p ∉ dir_prefixes pp -> is_file (add_dirs fs pp) p = is_file fs p.
Proof. intros H. unfold is_file, kind. destruct p; [done|]. by rewrite add_dirs_lookup, bool_decide_false. Qed.

Lemma mkdir_parents_rev_spec rp (s : state) :
  no_file_on (st_fs s) (rev rp) = true ->
  mkdir_parents_rev rp s = (Ok tt, set_fs (add_dirs (st_fs s) (rev rp)) s).
Proof.
  revert s. induction rp as [|c rq IH]; intros s Hno.
  - simpl. unfold try_except, os_mkdir, bind, get_fs, gets, raise. cbn.
    unfold exist_ok_or_raise, bind, get_fs, gets, is_dir, kind, ret. cbn.
    unfold add_dirs. simpl. by rewrite set_fs_id.
  - cbn [mkdir_parents_rev]. change (rev (c :: rq)) with (rev rq ++ [c])%list in *. set (pp := rev rq) in *.
    pose proof (proj1 (no_file_on_spec _ _) Hno) as Hno'. clear Hno. rename Hno' into Hno. rewrite dir_prefixes_snoc in Hno.
    assert (Hpp : forall q, q ∈ dir_prefixes pp -> is_file (st_fs s) q = false)
      by (intros q Hq; apply Hno; set_solver).
    assert (Hp : is_file (st_fs s) (pp ++ [c]) = false) by (apply Hno; set_solver).
    unfold try_except. rewrite os_mkdir_spec by apply snoc_ne.
    unfold walk_parent. rewrite removelast_last.
    destruct (walk_dirs_cases (st_fs s) [] pp Hpp) as [[Hw Hd]|Hw]; rewrite Hw.
    + rewrite add_dirs_snoc, (add_dirs_id _ _ Hd).
      unfold is_file, kind in Hp. destruct (pp ++ [c])%list as [|c0 p0] eqn:E; [by destruct (snoc_ne pp c)|].
      destruct (st_fs s !! (c0 :: p0)) as [[d|]|] eqn:Hl; [done| |done].
      unfold exist_ok_or_raise, bind, get_fs, gets, is_dir, kind. cbn [fst snd]. rewrite Hl.
      by rewrite insert_id, set_fs_id.
    + unfold bind. rewrite IH by (apply no_file_on_spec; exact Hpp).
      rewrite mkdir_once_spec.
      * by rewrite set_fs_set_fs, add_dirs_snoc.
      * apply snoc_ne.
      * simpl. unfold walk_parent. rewrite removelast_last. apply walk_dirs_all_dirs.
        intros q Hq. rewrite add_dirs_lookup. by rewrite bool_decide_true.
      * simpl. rewrite is_file_add_dirs by apply prefix_not_in_own_parent. exact Hp.
Qed.

Lemma path_mkdir_spec p (s : state) :
  no_file_on (st_fs s) p = true ->
  path_mkdir p s = (Ok tt, set_fs (add_dirs (st_fs s) p) s).
Proof. intros H. unfold path_mkdir. rewrite mkdir_parents_rev_spec; rewrite rev_involutive; done. Qed.

Lemma walk_dirs_mono fs fs' acc cs :
  (forall q, fs !! q = Some Dir -> fs' !! q = Some Dir) ->
  walk_dirs fs acc cs = Ok tt -> walk_dirs fs' acc cs = Ok tt.
Proof.
  intros Hm. revert acc. induction cs as [|c cs IH]; intros acc; simpl; [done|].
  destruct (fs !! (acc ++ [c])%list) as [[]|] eqn:E; try discriminate.
  rewrite (Hm _ E). apply IH.
Qed.

Lemma add_dirs_mono fs p q : fs !! q = Some Dir -> add_dirs fs p !! q = Some Dir.
Proof. intros H. rewrite add_dirs_lookup. by case_bool_decide. Qed.

Lemma kind_add_dirs fs p q : q ∉ dir_prefixes p -> kind (add_dirs fs p) q = kind fs q.
Proof. intros H. unfold kind. destruct q; [done|]. by rewrite add_dirs_lookup, bool_decide_false. Qed.

Lemma kind_file_nonempty fs p d : kind fs p = Some (File d) -> p <> [].
Proof. by intros H ->. Qed.

Lemma is_dir_false_nonempty fs p : is_dir fs p = false -> p <> [].
Proof. by intros H ->. Qed.

Lemma shutil_move_file dp sp d (s : state) :
  kind (st_fs s) dp = Some (File d) -> walk_parent (st_fs s) dp = Ok tt ->
  walk_parent (st_fs s) sp = Ok tt -> is_dir (st_fs s) sp = false ->
  shutil_move dp sp s = (Ok tt, set_fs (<[sp := File d]> (delete dp (st_fs s))) s).
Proof.
  intros Hk Hwd Hws Hd. unfold shutil_move, bind, get_fs, gets. cbn [fst snd]. rewrite Hd.
  unfold os_rename, bind, get_fs, gets. cbn [fst snd]. rewrite Hwd, Hk, Hws.
  case_bool_decide as Heq.
  - subst sp. unfold ret. f_equal. rewrite insert_delete_eq.
    unfold kind in Hk. destruct dp; [done|]. by rewrite insert_id, set_fs_id.
  - unfold is_dir in Hd. destruct (kind (st_fs s) sp) as [[]|]; try done.
Qed.

Lemma removelast_shorter (p : list string) : p <> [] -> length (removelast p) < length p.
Proof.
  intros Hp. destruct (exists_last Hp) as (l & a & ->). rewrite removelast_last, length_app. simpl. lia.
Qed.

Lemma not_in_parent_prefixes (p : list string) : p <> [] -> p ∉ dir_prefixes (parent_of p).
Proof.
  intros Hp H. apply prefixes_from_length in H. pose proof (removelast_shorter p Hp).
  unfold parent_of in H. simpl in H. lia.
Qed.

Lemma file_not_in_prefixes fs p q d : no_file_on fs p = true -> kind fs q = Some (File d) ->
  q ∉ dir_prefixes p.
Proof.
  intros Hno Hk Hq. pose proof (proj1 (no_file_on_spec _ _) Hno q Hq) as Hf.
  unfold is_file in Hf. by rewrite Hk in Hf.
Qed.

Lemma walk_parent_add_dirs fs p : walk_parent (add_dirs fs (parent_of p)) p = Ok tt.
Proof.
  unfold walk_parent. apply walk_dirs_all_dirs. intros q Hq. rewrite add_dirs_lookup.
  by rewrite bool_decide_true.
Qed.

(** Recreate the parent of [sp], then move the file at [dp] there. *)
Lemma mkdir_move_file {A} dp sp d (k : unit -> M A) (s : state) :
  kind (st_fs s) dp = Some (File d) -> walk_parent (st_fs s) dp = Ok tt ->
  is_dir (st_fs s) sp = false -> no_file_on (st_fs s) (parent_of sp) = true ->
  (let* _ := path_mkdir (parent_of sp) in let* v := shutil_move dp sp in k v) s =
  k tt (set_fs (<[sp := File d]> (delete dp (add_dirs (st_fs s) (parent_of sp)))) s).
Proof.
  intros Hk Hw Hd Hno. unfold bind at 1. rewrite path_mkdir_spec by done. cbn [fst snd].
  set (fs1 := add_dirs (st_fs s) (parent_of sp)).
  assert (H1 : kind (st_fs (set_fs fs1 s)) dp = Some (File d)).
  { simpl. unfold fs1. rewrite kind_add_dirs; [done|]. exact (file_not_in_prefixes _ _ _ _ Hno Hk). }
  assert (H2 : walk_parent (st_fs (set_fs fs1 s)) dp = Ok tt).
  { simpl. unfold walk_parent in *. eapply walk_dirs_mono; [|exact Hw]. apply add_dirs_mono. }
  assert (H3 : walk_parent (st_fs (set_fs fs1 s)) sp = Ok tt) by apply walk_parent_add_dirs.
  assert (H4 : is_dir (st_fs (set_fs fs1 s)) sp = false).
  { simpl. unfold fs1, is_dir in *. rewrite kind_add_dirs; [done|].
    apply not_in_parent_prefixes. exact (is_dir_false_nonempty _ _ Hd). }
  rewrite (bind_ok _ _ _ _ tt (shutil_move_file dp sp d _ H1 H2 H3 H4)). simpl.
  by rewrite set_fs_set_fs.
Qed.

Lemma undo_loop_cons op rest c src dst t (s : state) b s1 :
  json_get op "source" = Ok src -> json_get op "destination" = Ok dst ->
  json_get op "operation" = Ok t ->
  undo_record src dst t s = (Ok b, s1) ->
  undo_loop false (op :: rest) c s = undo_loop false rest (if b then S c else c) s1.
Proof.
  intros Hs Hd Ht Hr. simpl. unfold bind at 1, lift_res. rewrite Hs. cbn [fst snd].
  unfold bind at 1, lift_res. rewrite Hd. cbn [fst snd].
  unfold bind at 1, lift_res. rewrite Ht. cbn [fst snd].
  unfold bind at 1, try_except. by rewrite Hr.
Qed.

(** ** C5: a directory at a recorded source *)

Lemma walk_dirs_ok_dirs fs acc cs :
  walk_dirs fs acc cs = Ok tt -> forall q, q ∈ prefixes_from acc cs -> fs !! q = Some Dir.
Proof.
  revert acc. induction cs as [|c cs IH]; intros acc H q Hq; simpl in *; [set_solver|].
  destruct (fs !! (acc ++ [c])%list) as [[]|] eqn:E; try discriminate.
  apply elem_of_cons in Hq as [->|Hq]; [done|]. exact (IH _ H q Hq).
Qed.

(** Below a directory whose parents resolve, every prefix is a directory. *)
Lemma dir_prefixes_dirs fs p :
  walk_parent fs p = Ok tt -> is_dir fs p = true ->
  forall q, q ∈ dir_prefixes p -> fs !! q = Some Dir.
Proof.
  intros Hw Hd q Hq. destruct p as [|c p']; [set_solver|].
  destruct (exists_last (l := c :: p') ltac:(discriminate)) as (pp & x & Hpx). rewrite Hpx in *.
  rewrite dir_prefixes_snoc in Hq. apply elem_of_app in Hq as [Hq|Hq].
  - unfold walk_parent in Hw. rewrite removelast_last in Hw. exact (walk_dirs_ok_dirs _ _ _ Hw q Hq).
  - apply list_elem_of_singleton in Hq as ->. unfold is_dir, kind in Hd.
    destruct pp as [|y pp]; simpl in *; destruct (fs !! _) as [[]|]; done.
Qed.

(** [Path(p).mkdir(parents=True, exist_ok=True)] on the parent of a path
    whose parents resolve changes nothing. *)
Lemma path_mkdir_parent_noop p (s : state) :
  walk_parent (st_fs s) p = Ok tt -> path_mkdir (parent_of p) s = (Ok tt, s).
Proof.
  intros Hw. pose proof (walk_dirs_ok_dirs _ _ _ Hw) as Hd.
  rewrite path_mkdir_spec.
  - rewrite add_dirs_id; [by rewrite set_fs_id|exact Hd].
  - apply no_file_on_spec. intros q Hq. unfold is_file, kind. rewrite (Hd q Hq). by destruct q.
Qed.

(** [shutil.move(src, dst)] with [dst] a directory moves [src] into it. *)
Lemma shutil_move_into_dir dp sp d (s : state) :
  kind (st_fs s) dp = Some (File d) -> walk_parent (st_fs s) dp = Ok tt ->
  walk_parent (st_fs s) sp = Ok tt -> is_dir (st_fs s) sp = true ->
  path_exists (st_fs s) (sp ++ [name_of dp]) = false ->
  shutil_move dp sp s = (Ok tt, set_fs (<[(sp ++ [name_of dp])%list := File d]> (delete dp (st_fs s))) s).
Proof.
  intros Hk Hwd Hws Hd Hn. unfold shutil_move, bind, get_fs, gets. cbn [fst snd]. rewrite Hd.
  rewrite bool_decide_false.
  2:{ intros ->. unfold is_dir in Hd. rewrite Hk in Hd. discriminate. }
  cbv zeta. rewrite Hn. unfold os_rename, bind, get_fs, gets. cbn [fst snd]. rewrite Hwd, Hk.
  assert (Hw2 : walk_parent (st_fs s) (sp ++ [name_of dp]) = Ok tt).
  { unfold walk_parent. rewrite removelast_last. apply walk_dirs_all_dirs.
    exact (dir_prefixes_dirs _ _ Hws Hd). }
  rewrite Hw2. rewrite bool_decide_false.
  2:{ intros Heq. rewrite <- Heq in Hn. unfold path_exists in Hn. rewrite Hk in Hn. discriminate. }
  assert (Hk2 : kind (st_fs s) (sp ++ [name_of dp]) = None).
  { unfold path_exists in Hn. destruct (kind (st_fs s) (sp ++ [name_of dp])); done. }
  rewrite Hk2. reflexivity.
Qed.

(** C5 (code bug). The move-back step of [undo_operations] takes the
    recorded source path to be free.  When a directory exists there at
    undo time (one the run itself created, as in C1, or one made since),
    [shutil.move(destination, source)] moves the file into that
    directory, to [source/name], and counts the record as undone: the
    file is not back at its original location. *)
Theorem undo_move_into_source_directory op rest c (s : state) ss ds d :
  json_get op "source" = Ok (JStr ss) -> json_get op "destination" = Ok (JStr ds) ->
  json_get op "operation" = Ok (JStr "move") ->
  kind (st_fs s) (path_of_string ds) = Some (File d) ->
  walk_parent (st_fs s) (path_of_string ds) = Ok tt ->
  walk_parent (st_fs s) (path_of_string ss) = Ok tt ->
  is_dir (st_fs s) (path_of_string ss) = true ->
  path_exists (st_fs s) (path_of_string ss ++ [name_of (path_of_string ds)]) = false ->
  undo_loop false (op :: rest) c s =
  undo_loop false rest (S c)
    (set_out (st_out s ++ [EvUndone (path_of_string ds) (path_of_string ss)])%list
       (set_fs (<[(path_of_string ss ++ [name_of (path_of_string ds)])%list := File d]>
                  (delete (path_of_string ds) (st_fs s))) s)).
Proof.
  intros Hs Hd Ht Hk Hw Hws Hdir Hfree.
  eapply (undo_loop_cons op rest c _ _ _ s true); [exact Hs|exact Hd|exact Ht|].
  unfold undo_record. simpl. unfold bind at 1, lift_res. simpl.
  unfold bind at 1, get_fs, gets. cbn [fst snd].
  assert (He : path_exists (st_fs s) (path_of_string ds) = true) by (unfold path_exists; by rewrite Hk).
  rewrite He. unfold bind at 1, lift_res. simpl.
  rewrite (bind_ok _ _ _ _ _ (path_mkdir_parent_noop _ s Hws)).
  rewrite (bind_ok _ _ _ _ _ (shutil_move_into_dir _ _ d s Hk Hw Hws Hdir Hfree)).
  reflexivity.
Qed.

(** A move record whose source [s/a.txt] is a directory when the undo runs. *)
Definition ex_op_move : json :=
  record_json "t" "move" ["s"; "a.txt"] ["d"; "Documents"; "a.txt"] "Documents".

Definition ex_fs_src_dir : gmap path node :=
  <[["s"] := Dir]> (<[["s"; "a.txt"] := Dir]>
    (<[["d"] := Dir]> (<[["d"; "Documents"] := Dir]> (<[["d"; "Documents"; "a.txt"] := ex_file 1]> ∅)))).

Lemma undo_move_into_source_directory_witness :
  let s := ex_state ex_fs_src_dir in
  is_dir (st_fs s) ["s"; "a.txt"] = true /\
  undo_loop false [ex_op_move] 0 s =
    undo_loop false [] 1
      (set_out (st_out s ++ [EvUndone ["d"; "Documents"; "a.txt"] ["s"; "a.txt"]])%list
         (set_fs (<[["s"; "a.txt"; "a.txt"] := ex_file 1]> (delete ["d"; "Documents"; "a.txt"] (st_fs s))) s)).
Proof.
  intros s. split; [vm_compute; reflexivity|].
  exact (undo_move_into_source_directory ex_op_move [] 0 s "/s/a.txt" "/d/Documents/a.txt"
           (mkFile 1 10 OtherText) eq_refl eq_refl eq_refl eq_refl eq_refl eq_refl eq_refl eq_refl).
Defined.

(* ================================================================= *)
(** ** What a failed step leaves *)

(** [fs'] is [fs] with, at most, some new directories. *)
Definition grows (fs fs' : gmap (list string) node) : Prop :=
  forall p, fs' !! p = fs !! p \/ (fs !! p = None /\ fs' !! p = Some Dir).

(** A failed step: ledger and moved counter untouched, only new directories. *)
Definition fail_frame (s s' : state) : Prop :=
  st_ops s' = st_ops s /\ st_moved s' = st_moved s /\ st_types s' = st_types s /\
  st_clock s' = st_clock s /\ grows (st_fs s) (st_fs s').

Lemma grows_refl fs : grows fs fs.
Proof. intros p. by left. Qed.

Lemma grows_trans fs1 fs2 fs3 : grows fs1 fs2 -> grows fs2 fs3 -> grows fs1 fs3.
Proof.
  intros H1 H2 p. destruct (H1 p) as [E1|[N1 D1]]; destruct (H2 p) as [E2|[N2 D2]].
  - left. congruence.
  - right. split; congruence.
  - right. split; congruence.
  - congruence.
Qed.

Lemma grows_insert_dir fs p : fs !! p = None -> grows fs (<[p := Dir]> fs).
Proof.
  intros Hn q. destruct (decide (q = p)) as [->|Hne].
  - right. by rewrite lookup_insert_eq.
  - left. by rewrite lookup_insert_ne by congruence.
Qed.

Lemma fail_frame_refl s : fail_frame s s.
Proof. repeat split. apply grows_refl. Qed.

Lemma fail_frame_trans s1 s2 s3 : fail_frame s1 s2 -> fail_frame s2 s3 -> fail_frame s1 s3.
Proof.
  intros (A1 & B1 & C1 & N1 & D1) (A2 & B2 & C2 & N2 & D2). repeat split; try congruence.
  eapply grows_trans; eauto.
Qed.

(** What directory creation may do to the state. *)
Definition dirs_added (s s' : state) : Prop := s' = set_fs (st_fs s') s /\ grows (st_fs s) (st_fs s').

Lemma dirs_added_refl s : dirs_added s s.
Proof. split; [by rewrite set_fs_id|apply grows_refl]. Qed.

Lemma dirs_added_trans s1 s2 s3 : dirs_added s1 s2 -> dirs_added s2 s3 -> dirs_added s1 s3.
Proof.
  intros [E1 G1] [E2 G2]. split; [|eapply grows_trans; eauto].
  assert (X : set_fs (st_fs s3) s2 = set_fs (st_fs s3) s1) by (rewrite E1; apply set_fs_set_fs).
  congruence.
Qed.

Lemma dirs_added_fail s s' : dirs_added s s' -> fail_frame s s'.
Proof. intros [E G]. rewrite E. repeat split; simpl; [by destruct s..|exact G]. Qed.

Lemma os_mkdir_dirs p s r s' : os_mkdir p s = (r, s') -> dirs_added s s'.
Proof.
  intros H. destruct (decide (p = [])) as [->|Hp].
  - unfold os_mkdir, bind, get_fs, gets, raise in H. simpl in H. injection H as _ <-. apply dirs_added_refl.
  - rewrite os_mkdir_spec in H by done.
    destruct (walk_parent _ _); [destruct (st_fs s !! p) eqn:E|];
      injection H as _ <-; try apply dirs_added_refl.
    split; [reflexivity|]. simpl. by apply grows_insert_dir.
Qed.

Lemma exist_ok_or_raise_dirs p e s r s' : exist_ok_or_raise p e s = (r, s') -> s' = s.
Proof.
  unfold exist_ok_or_raise, bind, get_fs, gets. simpl. destruct (is_dir _ _); by intros [= _ <-].
Qed.

Lemma try_except_dirs {A} (m : M A) h s r s' :
  (forall r1 s1, m s = (r1, s1) -> dirs_added s s1) ->
  (forall e s1 r2 s2, m s = (Exc e, s1) -> h e s1 = (r2, s2) -> dirs_added s1 s2) ->
  try_except m h s = (r, s') -> dirs_added s s'.
Proof.
  intros Hm Hh. unfold try_except. destruct (m s) as [[a|e] s1] eqn:E.
  - intros [= _ <-]. exact (Hm _ _ eq_refl).
  - intros H. eapply dirs_added_trans; [exact (Hm _ _ eq_refl)|]. exact (Hh e s1 r s' eq_refl H).
Qed.

Lemma mkdir_once_dirs p s r s' : mkdir_once p s = (r, s') -> dirs_added s s'.
Proof.
  apply try_except_dirs; [intros; eapply os_mkdir_dirs; eauto|].
  intros e s1 r2 s2 _ H. destruct e; try (apply exist_ok_or_raise_dirs in H; subst; apply dirs_added_refl).
  unfold raise in H. injection H as _ <-. apply dirs_added_refl.
Qed.

Lemma mkdir_parents_rev_dirs rp s r s' : mkdir_parents_rev rp s = (r, s') -> dirs_added s s'.
Proof.
  revert s r s'. induction rp as [|c rq IH]; intros s r s'; simpl;
    (apply try_except_dirs; [intros; eapply os_mkdir_dirs; eauto|]);
    intros e s1 r2 s2 _ H; (destruct e; try (apply exist_ok_or_raise_dirs in H; subst; apply dirs_added_refl)).
  - unfold raise in H. injection H as _ <-. apply dirs_added_refl.
  - unfold bind in H. destruct (mkdir_parents_rev rq s1) as [[u|e'] s3] eqn:E.
    + eapply dirs_added_trans; [exact (IH _ _ _ E)|]. eapply mkdir_once_dirs; exact H.
    + injection H as _ <-. exact (IH _ _ _ E).
Qed.

Lemma path_mkdir_dirs p s r s' : path_mkdir p s = (r, s') -> dirs_added s s'.
Proof. apply mkdir_parents_rev_dirs. Qed.

Lemma shutil_move_exc src dst s e s' : shutil_move src dst s = (Exc e, s') -> s' = s.
Proof.
  unfold shutil_move, os_rename, bind, get_fs, gets, raise, ret, put_fs, modify. simpl.
  intros H. repeat (case_match; simplify_eq/=); done.
Qed.

Lemma shutil_copy2_exc src dst s e s' : shutil_copy2 src dst s = (Exc e, s') -> s' = s.
Proof.
  unfold shutil_copy2, bind, get_fs, gets, raise, ret, put_fs, modify. simpl.
  intros H. repeat (case_match; simplify_eq/=); done.
Qed.

Lemma fail_frame_out s o : fail_frame s (set_out o s).
Proof. repeat split. apply grows_refl. Qed.

Lemma fail_frame_counters s n : fail_frame s (set_counters n (st_moved s) s).
Proof. repeat split. apply grows_refl. Qed.

Section Fail.

Variable re : pylib.

Lemma process_file_fail dest o f s e s' :
  process_file re dest o f s = (Exc e, s') -> fail_frame s s'.
Proof.
  intros H. unfold process_file in H.
  destruct (matches_pattern_shape re (name_of f) (pattern o) s) as (b1 & w1 & E1 & _).
  rewrite (bind_ok _ _ _ _ _ E1) in H.
  set (s1 := set_out (st_out s ++ w1)%list s) in H.
  assert (F1 : fail_frame s s1) by apply fail_frame_out.
  destruct b1; [|discriminate]. simpl in H.
  assert (Hx : exists b2 w2, (if truthy (exclude_pattern o)
                 then matches_pattern re (name_of f) (exclude_pattern o) else ret false) s1
               = (Ok b2, set_out (st_out s1 ++ w2)%list s1)).
  { destruct (truthy (exclude_pattern o)).
    - destruct (matches_pattern_shape re (name_of f) (exclude_pattern o) s1) as (b & w & E & _). eauto.
    - exists false, []. by rewrite app_nil_r, set_out_id. }
  destruct Hx as (b2 & w2 & E2).
  rewrite (bind_ok _ _ _ _ _ E2) in H.
  set (s2 := set_out (st_out s1 ++ w2)%list s1) in H.
  assert (F2 : fail_frame s s2) by (eapply fail_frame_trans; [exact F1|apply fail_frame_out]).
  destruct b2; [discriminate|].
  unfold bind at 1, get_fs, gets in H. cbn [fst snd] in H.
  destruct (check_file_size (st_fs s2) f (min_size o) (max_size o)); [|discriminate]. simpl in H.
  unfold bind at 1, bump_processed, modify in H. cbn [fst snd] in H.
  set (s3 := set_counters (S (st_processed s2)) (st_moved s2) s2) in H.
  assert (F3 : fail_frame s s3) by (eapply fail_frame_trans; [exact F2|apply fail_frame_counters]).
  unfold bind at 1, gets in H. cbn [fst snd] in H.
  unfold bind at 1, lift_res in H.
  destruct (get_category (str_lower re) (st_types s3) (suffix_of (name_of f))) as [cat|e'] eqn:Hcat;
    [|injection H as _ <-; exact F3].
  unfold bind at 1, get_fs, gets in H. cbn [fst snd] in H.
  destruct (dry_run o); [discriminate|].
  unfold bind at 1 in H.
  destruct (path_mkdir (path_join dest cat) s3) as [[u|e1] s4] eqn:Em;
    pose proof (Hd := path_mkdir_dirs _ _ _ _ Em);
    [|injection H as _ <-; eapply fail_frame_trans; [exact F3|apply dirs_added_fail; exact Hd]].
  unfold bind at 1 in H.
  destruct (copy_files o).
  - destruct (shutil_copy2 _ _ s4) as [[u'|e2] s5] eqn:Ec.
    + unfold bind, gets, now_iso, append_op, bump_moved, emit, modify in H. simpl in H. discriminate.
    + apply shutil_copy2_exc in Ec. injection H as _ <-. subst s5.
      eapply fail_frame_trans; [exact F3|apply dirs_added_fail; exact Hd].
  - destruct (shutil_move _ _ s4) as [[u'|e2] s5] eqn:Ec.
    + unfold bind, gets, now_iso, append_op, bump_moved, emit, modify in H. simpl in H. discriminate.
    + apply shutil_move_exc in Ec. injection H as _ <-. subst s5.
      eapply fail_frame_trans; [exact F3|apply dirs_added_fail; exact Hd].
Qed.

Lemma organize_loop_ok dest o files s : fst (organize_loop re dest o files s) = Ok tt.
Proof.
  revert s. induction files as [|f rest IH]; intros s; simpl; [done|].
  unfold bind at 1, process_or_log, try_except.
  destruct (process_file re dest o f s) as [[[]|e] s1]; simpl; [apply IH|].
  unfold bind, emit, modify. simpl. apply IH.
Qed.

End Fail.

(** ** C2: per-file isolation *)

(** C2. In the loop of [organize_files], the next file is processed from
    whatever state the previous one left, and the loop never raises.  When
    processing one file raises, the exception is logged and dropped; the
    ledger and the moved counter are as before that file, and the
    filesystem differs only by new directories. *)
Theorem organize_per_file_isolation re dest o f rest (s : state) :
  organize_loop re dest o (f :: rest) s =
    organize_loop re dest o rest (snd (process_or_log re dest o f s)) /\
  fst (organize_loop re dest o (f :: rest) s) = Ok tt /\
  forall e s1, process_file re dest o f s = (Exc e, s1) ->
    process_or_log re dest o f s =
      (Ok tt, set_out (st_out s1 ++ [EvError ("Error processing " ++ string_of_path f)])%list s1) /\
    st_ops s1 = st_ops s /\ st_moved s1 = st_moved s /\
    forall p, st_fs s1 !! p = st_fs s !! p \/ (st_fs s !! p = None /\ st_fs s1 !! p = Some Dir).
Proof.
  split; [|split].
  - simpl. unfold bind at 1. destruct (process_or_log re dest o f s) as [r s1] eqn:E.
    unfold process_or_log, try_except in E.
    destruct (process_file re dest o f s) as [[[]|e] s2]; simpl in *.
    + by injection E as <- <-.
    + unfold emit, modify in E. by injection E as <- <-.
  - apply organize_loop_ok.
  - intros e s1 H. destruct (process_file_fail re dest o f s e s1 H) as (A & B & _ & _ & D).
    split; [|split; [exact A|split; [exact B|exact D]]].
    unfold process_or_log, try_except. by rewrite H.
Qed.

(** A listed file that is gone before it is moved, next to one that is there. *)
Definition ex_fs_vanish : gmap path node :=
  <[["s"] := Dir]> (<[["s"; "a.txt"] := ex_file 1]> ∅).

Lemma organize_per_file_isolation_witness :
  let s := ex_state ex_fs_vanish in
  let o := no_filters false false false in
  let s1 := snd (process_file re_literal ["d"] o ["s"; "gone.txt"] s) in
  process_file re_literal ["d"] o ["s"; "gone.txt"] s = (Exc FileNotFoundError, s1) /\
  process_or_log re_literal ["d"] o ["s"; "gone.txt"] s =
    (Ok tt, set_out (st_out s1 ++ [EvError ("Error processing " ++ "/s/gone.txt")])%list s1) /\
  st_ops s1 = [] /\
  fst (organize_loop re_literal ["d"] o [["s"; "gone.txt"]; ["s"; "a.txt"]] s) = Ok tt /\
  organize_files re_literal ["s"] ["d"] o (Ok [["s"; "gone.txt"]; ["s"; "a.txt"]]) s =
    (Ok (2, 1), snd (organize_files re_literal ["s"] ["d"] o (Ok [["s"; "gone.txt"]; ["s"; "a.txt"]]) s)).
Proof.
  intros s o s1.
  assert (H : process_file re_literal ["d"] o ["s"; "gone.txt"] s = (Exc FileNotFoundError, s1))
    by (vm_compute; reflexivity).
  destruct (organize_per_file_isolation re_literal ["d"] o ["s"; "gone.txt"] [["s"; "a.txt"]] s)
    as (_ & B & C).
  destruct (C _ _ H) as (C1 & C2 & _).
  split; [exact H|]. split; [exact C1|]. split; [exact C2|]. split; [exact B|].
  vm_compute. reflexivity.
Defined.

(* ================================================================= *)
(** ** Names of candidates *)

Lemma has_char_app c a b : has_char c (a ++ b) = has_char c a || has_char c b.
Proof. induction a as [|c' a IH]; simpl; [done|]. by rewrite IH, orb_assoc. Qed.

Lemma has_char_substring c s i l : has_char c s = false -> has_char c (substring i l s) = false.
Proof.
  revert i l. induction s as [|c' s IH]; intros i l H; destruct i, l; simpl in *; try done.
  - apply orb_false_iff in H as [H1 H2]. by rewrite H1, IH.
  - apply orb_false_iff in H as [H1 H2]. by apply IH.
  - apply orb_false_iff in H as [H1 H2]. by apply IH.
Qed.

Lemma has_char_stem_of c name : has_char c name = false -> has_char c (stem_of name) = false.
Proof. unfold stem_of. destruct (has_suffix name); [apply has_char_substring|done]. Qed.

Lemma has_char_suffix_of c name : has_char c name = false -> has_char c (suffix_of name) = false.
Proof. unfold suffix_of. destruct (has_suffix name); [apply has_char_substring|done]. Qed.

Lemma pretty_N_char_no_slash x : Ascii.eqb "/" (pretty_N_char x) = false.
Proof. destruct x as [|p]; [done|]. do 4 (destruct p as [p|p|]; try reflexivity). Qed.

Lemma pretty_N_go_no_slash x s : has_char "/" s = false -> has_char "/" (pretty_N_go x s) = false.
Proof.
  revert s. induction x as [x IH] using (well_founded_induction N.lt_wf_0). intros s Hs.
  destruct (decide (0 < x)%N) as [Hx|Hx].
  - rewrite pretty_N_go_step by done. apply IH; [apply N.div_lt; lia|].
    cbn [has_char]. by rewrite Hs, orb_false_r, pretty_N_char_no_slash.
  - assert (x = 0%N) as -> by lia. by rewrite pretty_N_go_0.
Qed.

Lemma pretty_no_slash (n : nat) : has_char "/" (pretty n) = false.
Proof.
  unfold pretty, pretty_nat, pretty, pretty_N. case_decide; [done|]. by apply pretty_N_go_no_slash.
Qed.

Lemma split_slash_plain s : has_char "/" s = false -> split_slash s = [s].
Proof.
  induction s as [|c s IH]; intros H; [done|]. cbn [has_char] in H. cbn [split_slash].
  apply orb_false_iff in H as [H1 H2]. rewrite Ascii.eqb_sym, H1. by rewrite IH.
Qed.

Lemma path_join_plain base name :
  has_char "/" name = false -> name <> "" -> name <> "." -> name <> ".." ->
  path_join base name = (base ++ [name])%list.
Proof.
  intros H H1 H2 H3. unfold path_join. rewrite split_slash_plain by done.
  destruct name as [|c s]; [done|]. simpl. unfold push_comp.
  destruct (String.eqb_spec (String c s) "") as [|_]; [done|].
  destruct (String.eqb_spec (String c s) ".") as [|_]; [done|].
  by destruct (String.eqb_spec (String c s) "..") as [|_].
Qed.

Lemma unique_name_underscore p n : has_char "_" (unique_name p n) = true.
Proof. unfold unique_name. rewrite has_char_app. simpl. by rewrite orb_true_r. Qed.

Lemma unique_name_no_slash p n :
  has_char "/" (name_of p) = false -> has_char "/" (unique_name p n) = false.
Proof.
  intros H. unfold unique_name.
  rewrite !has_char_app, has_char_stem_of, pretty_no_slash, has_char_suffix_of by done.
  reflexivity.
Qed.

Lemma unique_candidate_eq p n :
  has_char "/" (name_of p) = false ->
  unique_candidate p n = (parent_of p ++ [unique_name p n])%list.
Proof.
  intros H. unfold unique_candidate. apply path_join_plain; [by apply unique_name_no_slash|..];
    intros E; pose proof (unique_name_underscore p n) as U; rewrite E in U; discriminate.
Qed.

Lemma string_app_cancel_l a b c : a ++ b = a ++ c -> b = c.
Proof. induction a as [|x a IH]; simpl; [done|]. intros H. injection H. apply IH. Qed.

Lemma list_ascii_of_string_app a b :
  list_ascii_of_string (a ++ b) = (list_ascii_of_string a ++ list_ascii_of_string b)%list.
Proof. induction a as [|x a IH]; simpl; [done|]. by rewrite IH. Qed.

Lemma string_app_cancel_r a b c : a ++ c = b ++ c -> a = b.
Proof.
  intros H. apply (f_equal list_ascii_of_string) in H. rewrite !list_ascii_of_string_app in H.
  apply app_inv_tail in H. rewrite <- (string_of_list_ascii_of_string a), <- (string_of_list_ascii_of_string b).
  by rewrite H.
Qed.

Lemma unique_name_inj p n m : unique_name p n = unique_name p m -> n = m.
Proof.
  unfold unique_name. intros H. apply string_app_cancel_l in H. injection H as H.
  change (pretty n ++ suffix_of (name_of p) = pretty m ++ suffix_of (name_of p)) in H.
  apply string_app_cancel_r in H. by apply (inj pretty).
Qed.

Lemma unique_candidate_inj p n m : has_char "/" (name_of p) = false ->
  unique_candidate p n = unique_candidate p m -> n = m.
Proof.
  intros H E. rewrite !unique_candidate_eq in E by done. apply app_inv_head in E.
  injection E. apply unique_name_inj.
Qed.

Lemma probe_spec fs p fuel c :
  (exists k, c <= k <= c + fuel /\ path_exists fs (unique_candidate p k) = false) ->
  exists N, c <= N /\ probe fs p c fuel = unique_candidate p N /\
    path_exists fs (unique_candidate p N) = false /\
    forall k, c <= k < N -> path_exists fs (unique_candidate p k) = true.
Proof.
  revert c. induction fuel as [|fuel IH]; intros c (k & Hk & Hf).
  - assert (k = c) as -> by lia. exists c. split; [lia|]. split; [done|]. split; [done|lia].
  - simpl. destruct (path_exists fs (unique_candidate p c)) eqn:E.
    + destruct (IH (S c)) as (N & HN & Hp & HfN & Hlt).
      { exists k. split; [|done]. destruct (decide (k = c)) as [->|]; [congruence|lia]. }
      exists N. split; [lia|]. split; [done|]. split; [done|].
      intros k' Hk'. destruct (decide (k' = c)) as [->|]; [done|]. apply Hlt. lia.
    + exists c. split; [lia|]. split; [done|]. split; [done|lia].
Qed.

Lemma free_candidate_exists fs p : has_char "/" (name_of p) = false ->
  exists k, 1 <= k <= 1 + size fs /\ path_exists fs (unique_candidate p k) = false.
Proof.
  intros Hp.
  destruct (existsb (fun k => negb (path_exists fs (unique_candidate p k))) (seq 1 (S (size fs))))
    eqn:E.
  - apply existsb_exists in E as (k & Hin & Hk). apply in_seq in Hin.
    exists k. split; [lia|]. by apply negb_true_iff in Hk.
  - exfalso. assert (Hall : forall k, In k (seq 1 (S (size fs))) ->
                       path_exists fs (unique_candidate p k) = true).
    { intros k Hk. destruct (path_exists fs (unique_candidate p k)) eqn:Ek; [done|].
      rewrite <- E. apply existsb_exists. exists k. by rewrite Ek. }
    set (L := map (unique_candidate p) (seq 1 (S (size fs)))).
    assert (Hnd : NoDup L).
    { apply NoDup_fmap_2; [intros n m; by apply unique_candidate_inj|apply NoDup_seq]. }
    assert (Hsub : (list_to_set L : gset path) ⊆ dom fs).
    { intros q Hq. apply elem_of_list_to_set in Hq. unfold L in Hq.
      apply list_elem_of_In, in_map_iff in Hq as (k & <- & Hk).
      specialize (Hall k Hk). rewrite unique_candidate_eq in Hall |- * by done.
      unfold path_exists, kind in Hall. destruct (parent_of p ++ _)%list eqn:Eq;
        [by destruct (parent_of p)|]. rewrite <- Eq in Hall |- *.
      apply elem_of_dom. destruct (fs !! _); [by eexists|done]. }
    apply subseteq_size in Hsub. rewrite size_list_to_set in Hsub by done.
    rewrite size_dom in Hsub. unfold L in Hsub. rewrite length_map, length_seq in Hsub. lia.
Qed.

(** [get_unique_filename]: the target itself when it is free, otherwise the
    first free candidate [parent/stem_N suffix] with [N >= 1]. *)
Lemma get_unique_filename_spec fs p : has_char "/" (name_of p) = false ->
  path_exists fs p = true ->
  exists N, 1 <= N /\ get_unique_filename fs p = unique_candidate p N /\
    path_exists fs (unique_candidate p N) = false /\
    forall k, 1 <= k < N -> path_exists fs (unique_candidate p k) = true.
Proof.
  intros Hp He. unfold get_unique_filename. rewrite He. simpl.
  apply probe_spec. destruct (free_candidate_exists fs p Hp) as (k & Hk & Hf).
  exists k. split; [lia|done].
Qed.

(** ** C3: [get_unique_filename] *)

(** C3. For a target whose name has no ["/"] (every name of a parsed
    path): a free target is returned unchanged; an occupied one gives
    [parent/stem_N suffix] for the least [N >= 1] whose candidate is free,
    every smaller candidate being occupied; and the result depends only on
    which paths exist. *)
Theorem get_unique_filename_least fs p : has_char "/" (name_of p) = false ->
  (path_exists fs p = false -> get_unique_filename fs p = p) /\
  (path_exists fs p = true -> exists N, 1 <= N /\
     get_unique_filename fs p =
       (parent_of p ++ [(stem_of (name_of p) ++ "_" ++ pretty N ++ suffix_of (name_of p))%string])%list /\
     path_exists fs (get_unique_filename fs p) = false /\
     forall k, 1 <= k < N ->
       path_exists fs (parent_of p ++ [(stem_of (name_of p) ++ "_" ++ pretty k ++ suffix_of (name_of p))%string])%list
       = true) /\
  (forall fs', (forall q, path_exists fs' q = path_exists fs q) ->
     get_unique_filename fs' p = get_unique_filename fs p).
Proof.
  intros Hp. split; [|split].
  - intros He. unfold get_unique_filename. by rewrite He.
  - intros He. destruct (get_unique_filename_spec fs p Hp He) as (N & HN & Hg & Hf & Hlt).
    exists N. split; [done|]. rewrite Hg. rewrite unique_candidate_eq in Hf |- * by done.
    split; [reflexivity|]. split; [exact Hf|]. intros k Hk. specialize (Hlt k Hk).
    rewrite unique_candidate_eq in Hlt by done. exact Hlt.
  - intros fs' Hsame. destruct (path_exists fs p) eqn:He.
    + assert (He' : path_exists fs' p = true) by (by rewrite Hsame).
      destruct (get_unique_filename_spec fs p Hp He) as (N & HN & Hg & Hf & Hlt).
      destruct (get_unique_filename_spec fs' p Hp He') as (N' & HN' & Hg' & Hf' & Hlt').
      rewrite Hg, Hg'. f_equal.
      destruct (Nat.lt_trichotomy N N') as [Hl|[->|Hl]]; [exfalso..|done|exfalso].
      * specialize (Hlt' N ltac:(lia)). rewrite Hsame in Hlt'. congruence.
      * specialize (Hlt N' ltac:(lia)). rewrite <- Hsame in Hlt. congruence.
    + assert (He' : path_exists fs' p = false) by (by rewrite Hsame).
      unfold get_unique_filename. by rewrite He, He'.
Qed.

Definition ex_fs_taken : gmap path node :=
  <[["d"] := Dir]> (<[["d"; "a.txt"] := ex_file 1]> (<[["d"; "a_1.txt"] := ex_file 2]> ∅)).

Lemma get_unique_filename_least_witness :
  has_char "/" (name_of ["d"; "a.txt"]) = false /\
  get_unique_filename ex_fs_taken ["d"; "b.txt"] = ["d"; "b.txt"] /\
  (exists N, 1 <= N /\
     get_unique_filename ex_fs_taken ["d"; "a.txt"] = ["d"; ("a_" ++ pretty N ++ ".txt")%string] /\
     path_exists ex_fs_taken (get_unique_filename ex_fs_taken ["d"; "a.txt"]) = false) /\
  get_unique_filename ex_fs_taken ["d"; "a.txt"] = ["d"; "a_2.txt"] /\
  get_unique_filename (delete ["d"; "a_1.txt"] ex_fs_taken) ["d"; "a.txt"] = ["d"; "a_1.txt"].
Proof.
  assert (Hp : has_char "/" (name_of ["d"; "a.txt"]) = false) by reflexivity.
  assert (Hb : has_char "/" (name_of ["d"; "b.txt"]) = false) by reflexivity.
  split; [exact Hp|]. split.
  - apply (proj1 (get_unique_filename_least ex_fs_taken _ Hb)). vm_compute. reflexivity.
  - split; [|split; vm_compute; reflexivity].
    destruct (proj1 (proj2 (get_unique_filename_least ex_fs_taken _ Hp)) ltac:(vm_compute; reflexivity))
      as (N & HN & Hg & Hf & _).
    exists N. split; [exact HN|]. split; [exact Hg|exact Hf].
Defined.

(* ================================================================= *)
(** ** C1: a move run and its undo *)

(** Path components that parse back to themselves. *)
Definition plain_comp (c : string) : bool :=
  negb (String.eqb c "") && negb (String.eqb c ".") && negb (String.eqb c "..") &&
  negb (has_char "/" c).
Definition plain_path (p : path) : bool := forallb plain_comp p.

Lemma plain_comp_spec c : plain_comp c = true ->
  has_char "/" c = false /\ c <> "" /\ c <> "." /\ c <> "..".
Proof.
  unfold plain_comp. intros H. repeat rewrite andb_true_iff in H.
  destruct H as [[[H1 H2] H3] H4]. apply negb_true_iff in H1, H2, H3, H4.
  apply String.eqb_neq in H1, H2, H3. done.
Qed.

Lemma plain_path_app p q : plain_path (p ++ q) = plain_path p && plain_path q.
Proof. apply forallb_app. Qed.

(** Directory creation leaves alone every path longer than its argument. *)
Definition keeps_long (n : nat) (s s' : state) : Prop :=
  forall q, n < length q -> st_fs s' !! q = st_fs s !! q.

Lemma keeps_long_refl n s : keeps_long n s s.
Proof. by intros q _. Qed.

Lemma keeps_long_trans n s1 s2 s3 : keeps_long n s1 s2 -> keeps_long n s2 s3 -> keeps_long n s1 s3.
Proof. intros H1 H2 q Hq. rewrite H2, H1 by done. done. Qed.

Lemma keeps_long_le n m s s' : n <= m -> keeps_long n s s' -> keeps_long m s s'.
Proof. intros Hle H q Hq. apply H. lia. Qed.

Lemma os_mkdir_keeps p s r s' : os_mkdir p s = (r, s') -> keeps_long (length p) s s'.
Proof.
  intros H. destruct (decide (p = [])) as [->|Hp].
  - unfold os_mkdir, bind, get_fs, gets, raise in H. simpl in H. injection H as _ <-. apply keeps_long_refl.
  - rewrite os_mkdir_spec in H by done.
    destruct (walk_parent _ _); [destruct (st_fs s !! p) eqn:E|];
      injection H as _ <-; try apply keeps_long_refl.
    intros q Hq. simpl. rewrite lookup_insert_ne; [done|]. intros ->. lia.
Qed.

Lemma try_except_keeps {A} n (m : M A) h s r s' :
  (forall r1 s1, m s = (r1, s1) -> keeps_long n s s1) ->
  (forall e s1 r2 s2, m s = (Exc e, s1) -> h e s1 = (r2, s2) -> keeps_long n s1 s2) ->
  try_except m h s = (r, s') -> keeps_long n s s'.
Proof.
  intros Hm Hh. unfold try_except. destruct (m s) as [[a|e] s1] eqn:E.
  - intros [= _ <-]. exact (Hm _ _ eq_refl).
  - intros H. eapply keeps_long_trans; [exact (Hm _ _ eq_refl)|]. exact (Hh e s1 r s' eq_refl H).
Qed.

Lemma mkdir_once_keeps p s r s' : mkdir_once p s = (r, s') -> keeps_long (length p) s s'.
Proof.
  apply try_except_keeps; [intros; eapply os_mkdir_keeps; eauto|].
  intros e s1 r2 s2 _ H. destruct e; try (apply exist_ok_or_raise_dirs in H; subst; apply keeps_long_refl).
  unfold raise in H. injection H as _ <-. apply keeps_long_refl.
Qed.

Lemma mkdir_parents_rev_keeps rp s r s' : mkdir_parents_rev rp s = (r, s') -> keeps_long (length rp) s s'.
Proof.
  revert s r s'. induction rp as [|c rq IH]; intros s r s'; cbn [mkdir_parents_rev];
    (apply try_except_keeps; [intros; rewrite <- length_rev; eapply os_mkdir_keeps; eauto|]);
    intros e s1 r2 s2 _ H; (destruct e; try (apply exist_ok_or_raise_dirs in H; subst; apply keeps_long_refl)).
  - unfold raise in H. injection H as _ <-. apply keeps_long_refl.
  - unfold bind in H. destruct (mkdir_parents_rev rq s1) as [[u|e'] s3] eqn:E.
    + eapply keeps_long_trans; [apply (keeps_long_le (length rq)); [simpl; lia|exact (IH _ _ _ E)]|].
      rewrite <- (length_rev (c :: rq)). eapply mkdir_once_keeps; exact H.
    + injection H as _ <-. apply (keeps_long_le (length rq)); [simpl; lia|exact (IH _ _ _ E)].
Qed.

Lemma path_mkdir_keeps p s r s' : path_mkdir p s = (r, s') -> keeps_long (length p) s s'.
Proof. unfold path_mkdir. intros H. rewrite <- length_rev. eapply mkdir_parents_rev_keeps; exact H. Qed.

Lemma no_underscore_plain (x : string) : has_char "_" x = true -> x <> "" /\ x <> "." /\ x <> "..".
Proof. intros H. repeat split; intros ->; discriminate. Qed.

(** The destination chosen for a plain name in a plain directory. *)
Lemma unique_target_plain fs dir name : plain_comp name = true ->
  exists x, get_unique_filename fs (dir ++ [name])%list = (dir ++ [x])%list /\
    plain_comp x = true /\ path_exists fs (get_unique_filename fs (dir ++ [name])%list) = false.
Proof.
  intros Hn. pose proof (plain_comp_spec _ Hn) as (Hs & _).
  assert (Hname : name_of (dir ++ [name])%list = name) by (unfold name_of; apply last_last).
  destruct (path_exists fs (dir ++ [name])%list) eqn:E.
  - destruct (get_unique_filename_spec fs (dir ++ [name])%list) as (N & _ & -> & Hf & _);
      [by rewrite Hname|done|].
    rewrite unique_candidate_eq in Hf |- * by (by rewrite Hname). unfold parent_of in *. rewrite removelast_last in Hf |- *.
    exists (unique_name (dir ++ [name])%list N). split; [done|]. split; [|done].
    pose proof (unique_name_no_slash (dir ++ [name])%list N) as U1. rewrite Hname in U1.
    specialize (U1 Hs).
    destruct (no_underscore_plain _ (unique_name_underscore (dir ++ [name])%list N)) as (A & B & C).
    unfold plain_comp. apply String.eqb_neq in A, B, C. by rewrite A, B, C, U1.
  - unfold get_unique_filename. rewrite E. simpl. exists name. done.
Qed.

Definition ex_fs_flat : gmap path node :=
  <[["s"] := Dir]> (<[["s"; "a.txt"] := ex_file 1]> (<[["s"; "b.jpg"] := ex_file 2]> ∅)).
Definition ex_listing_flat : list path := [["s"; "a.txt"]; ["s"; "b.jpg"]].

Definition ex_fs_clash : gmap path node :=
  <[["s"] := Dir]> (<[["s"; "Documents"] := ex_file 1]> (<[["s"; "a.txt"] := ex_file 2]> ∅)).
Definition ex_listing_clash : list path := [["s"; "Documents"]; ["s"; "a.txt"]].

Lemma ex_listing_clash_ok : listing_ok ex_fs_clash ["s"] false ex_listing_clash.
Proof.
  split; [repeat constructor; set_solver|].
  intros p. split.
  - intros Hp. unfold ex_listing_clash in Hp. rewrite elem_of_cons, elem_of_cons, elem_of_nil in Hp.
    destruct Hp as [->|[->|[]]]; (split; [vm_compute; reflexivity|]); simpl; eauto.
  - intros [Hf [k ->]]. apply is_file_lookup in Hf as [d Hd].
    unfold ex_fs_clash in Hd. rewrite !lookup_insert_Some, lookup_empty in Hd.
    unfold ex_listing_clash. set_solver.
Qed.

(** C1 (code bug). Undoing a move run does not always restore the files.
    With source and destination both [s], the run moves [s/Documents] (no
    suffix) to [s/Other/Documents], then [s/a.txt] into the directory
    [s/Documents] it creates at the path it has just vacated.  After
    [save_undo_log], [undo_operations] moves [s/Documents/a.txt] back to
    [s/a.txt], then moves [s/Other/Documents] into the directory
    [s/Documents], to [s/Documents/Documents], and counts both records:
    the file that was at [s/Documents] is not back there. *)
Theorem organize_undo_round_trip_clash :
  let s0 := ex_state ex_fs_clash in
  let run := organize_files re_literal ["s"] ["s"] (no_filters false false false) (Ok ex_listing_clash) s0 in
  let lf := ["log.json"] in
  let s2 := snd (save_undo_log dump_ex lf (snd run)) in
  let undo := undo_operations lf false s2 in
  listing_ok ex_fs_clash ["s"] false ex_listing_clash /\
  fst run = Ok (2, 2) /\ fst undo = Ok 2 /\
  st_fs s0 !! ["s"; "Documents"] = Some (ex_file 1) /\
  st_fs (snd undo) !! ["s"; "a.txt"] = Some (ex_file 2) /\
  st_fs (snd undo) !! ["s"; "Documents"] = Some Dir /\
  st_fs (snd undo) !! ["s"; "Documents"; "Documents"] = Some (ex_file 1).
Proof.
  intros s0 run lf s2 undo. split; [exact ex_listing_clash_ok|].
  vm_compute. repeat split.
Qed.

(* ================================================================= *)
(** * Further properties of the code *)

Definition drop_empty (p : option string) : option string := if truthy p then p else None.

Definition without_empty_patterns (o : options) : options :=
  mkOptions (dry_run o) (recursive o) (copy_files o) (drop_empty (pattern o))
    (drop_empty (exclude_pattern o)) (min_size o) (max_size o).

Lemma truthy_drop_empty p : truthy (drop_empty p) = truthy p.
Proof. unfold drop_empty. by destruct (truthy p) eqn:E. Qed.

Lemma matches_pattern_drop_empty re n p : matches_pattern re n (drop_empty p) = matches_pattern re n p.
Proof.
  unfold drop_empty, truthy. destruct p as [pat|]; [|done].
  destruct (String.eqb_spec pat "") as [->|]; done.
Qed.

Lemma bind_lift_ok {A B} (a : A) (k : A -> M B) : bind (lift_res (Ok a)) k = fun s => k a s.
Proof. reflexivity. Qed.

Lemma process_file_drop_empty re dest o f :
  process_file re dest (without_empty_patterns o) f = process_file re dest o f.
Proof.
  unfold process_file, without_empty_patterns. cbn [pattern exclude_pattern dry_run copy_files min_size max_size].
  by rewrite !matches_pattern_drop_empty, truthy_drop_empty.
Qed.

Lemma organize_loop_drop_empty re dest o files :
  organize_loop re dest (without_empty_patterns o) files = organize_loop re dest o files.
Proof.
  induction files as [|f rest IH]; simpl; [done|].
  unfold process_or_log. by rewrite process_file_drop_empty, IH.
Qed.

(** X3. An empty include or exclude pattern is treated as no pattern:
    [organize_files] behaves the same when both empty patterns are replaced
    by None. *)
Theorem empty_pattern_is_no_pattern re src dest o files :
  organize_files re src dest (without_empty_patterns o) files = organize_files re src dest o files.
Proof.
  unfold organize_files. destruct files as [l|e]; [|reflexivity].
  rewrite !bind_lift_ok. cbv beta. by rewrite organize_loop_drop_empty.
Qed.

Definition keeps_files (fs fs' : gmap path node) : Prop :=
  forall p d, fs !! p = Some (File d) -> fs' !! p = Some (File d).

Lemma grows_keeps fs fs' : grows fs fs' -> keeps_files fs fs'.
Proof. intros G p d H. destruct (G p) as [->|[N _]]; congruence. Qed.

Lemma keeps_files_trans fs1 fs2 fs3 : keeps_files fs1 fs2 -> keeps_files fs2 fs3 -> keeps_files fs1 fs3.
Proof. intros H1 H2 p d H. auto. Qed.

Lemma shutil_move_ok_state src dst s u s' : shutil_move src dst s = (Ok u, s') -> s' = set_fs (st_fs s') s.
Proof.
  unfold shutil_move, os_rename, bind, get_fs, gets, raise, ret, put_fs, modify. simpl.
  intros H. repeat (case_match; simplify_eq/=); by rewrite ?set_fs_id.
Qed.

Lemma shutil_copy2_ok_state src dst s u s' : shutil_copy2 src dst s = (Ok u, s') -> s' = set_fs (st_fs s') s.
Proof.
  unfold shutil_copy2, bind, get_fs, gets, raise, ret, put_fs, modify. simpl.
  intros H. repeat (case_match; simplify_eq/=); by rewrite ?set_fs_id.
Qed.

Lemma shutil_copy2_fresh src dst s u s' :
  st_fs s !! dst = None -> dst <> [] -> shutil_copy2 src dst s = (Ok u, s') ->
  exists d, s' = set_fs (<[dst := File d]> (st_fs s)) s.
Proof.
  intros Hn Hne. unfold shutil_copy2, bind, get_fs, gets, raise, ret, put_fs, modify. cbn [fst snd].
  assert (Hk : kind (st_fs s) dst = None) by (destruct dst; [done|exact Hn]).
  assert (Hd : is_dir (st_fs s) dst = false) by (unfold is_dir; by rewrite Hk).
  rewrite Hd, Hk. intros H. repeat (case_match; simplify_eq/=); eauto.
Qed.

(** What one file's [try] body does to the state. *)
Lemma process_file_effect re dest o f (s s' : state) r :
  process_file re dest o f s = (r, s') ->
  st_types s' = st_types s /\ st_processed s <= st_processed s' /\
  ((st_ops s' = st_ops s /\ st_moved s' = st_moved s /\ grows (st_fs s) (st_fs s') /\
    ((forall kvs, st_types s <> JObj kvs) -> st_fs s' = st_fs s) /\
    (forall n, st_clock s' n = st_clock s n))
   \/ (r = Ok tt /\ st_moved s' = S (st_moved s) /\ st_processed s' = S (st_processed s) /\
       ((forall kvs, st_types s <> JObj kvs) -> False) /\
       (exists t cat, st_ops s' = (st_ops s ++ [record_json (st_clock s 0)
                         (if copy_files o then "copy" else "move") f t cat])%list) /\
       (forall n, st_clock s' n = st_clock s (S n)) /\
       (copy_files o = true -> plain_comp (name_of f) = true -> keeps_files (st_fs s) (st_fs s')))).
Proof.
  intros H. unfold process_file in H.
  destruct (matches_pattern_shape re (name_of f) (pattern o) s) as (b1 & w1 & E1 & _).
  rewrite (bind_ok _ _ _ _ _ E1) in H.
  set (s1 := set_out (st_out s ++ w1)%list s) in H.
  destruct b1; simpl in H; [|injection H as <- <-; simpl; split; [done|];
    split; [lia|]; left; repeat split; [apply grows_refl]].
  assert (Hx : exists b2 w2, (if truthy (exclude_pattern o)
                 then matches_pattern re (name_of f) (exclude_pattern o) else ret false) s1
               = (Ok b2, set_out (st_out s1 ++ w2)%list s1)).
  { destruct (truthy (exclude_pattern o)).
    - destruct (matches_pattern_shape re (name_of f) (exclude_pattern o) s1) as (b & w & E & _). eauto.
    - exists false, []. by rewrite app_nil_r, set_out_id. }
  destruct Hx as (b2 & w2 & E2).
  rewrite (bind_ok _ _ _ _ _ E2) in H.
  set (s2 := set_out (st_out s1 ++ w2)%list s1) in H.
  destruct b2; [injection H as <- <-; simpl; split; [done|];
    split; [lia|]; left; repeat split; [apply grows_refl]|].
  unfold bind at 1, get_fs, gets in H. cbn [fst snd] in H.
  destruct (check_file_size (st_fs s2) f (min_size o) (max_size o)); simpl in H;
    [|injection H as <- <-; simpl; split; [done|];
      split; [lia|]; left; repeat split; [apply grows_refl]].
  unfold bind at 1, bump_processed, modify in H. cbn [fst snd] in H.
  set (s3 := set_counters (S (st_processed s2)) (st_moved s2) s2) in H.
  unfold bind at 1, gets in H. cbn [fst snd] in H.
  unfold bind at 1, lift_res in H.
  destruct (get_category (str_lower re) (st_types s3) (suffix_of (name_of f))) as [cat|e'] eqn:Hcat;
    [|injection H as <- <-; simpl; split; [done|];
      split; [lia|]; left; repeat split; [apply grows_refl]].
  assert (Hobj : (forall kvs, st_types s <> JObj kvs) -> False).
  { intros Hn. unfold get_category in Hcat. simpl in Hcat.
    destruct (st_types s) eqn:Ht; try discriminate. by apply (Hn kvs). }
  unfold bind at 1, get_fs, gets in H. cbn [fst snd] in H.
  destruct (dry_run o).
  { unfold emit, modify in H. injection H as <- <-. simpl. split; [done|].
    split; [lia|]. left. repeat split; [apply grows_refl]. }
  set (tdir := path_join dest cat) in H.
  set (t := get_unique_filename (st_fs s3) (path_join tdir (name_of f))) in H.
  unfold bind at 1 in H.
  destruct (path_mkdir tdir s3) as [[u|e] s4] eqn:Em;
    destruct (path_mkdir_dirs _ _ _ _ Em) as [E4 G4];
    [|injection H as <- <-; rewrite E4; simpl; split; [done|];
      split; [lia|]; left; repeat split; [exact G4|intros Hn; by destruct (Hobj Hn)]].
  pose proof (path_mkdir_keeps _ _ _ _ Em) as K4.
  unfold bind at 1 in H.
  destruct (copy_files o) eqn:Hc.
  - destruct (shutil_copy2 f t s4) as [[u'|e2] s5] eqn:Ec.
    2:{ apply shutil_copy2_exc in Ec. injection H as <- <-. subst s5. rewrite E4. simpl.
        split; [done|]. split; [lia|]. left.
        repeat split; [exact G4|intros Hn; by destruct (Hobj Hn)]. }
    unfold bind, gets, now_iso, append_op, bump_moved, emit, modify in H. simpl in H.
    injection H as <- <-. simpl.
    pose proof (E5 := shutil_copy2_ok_state _ _ _ _ _ Ec).
    rewrite E5, E4. simpl. split; [done|]. split; [lia|]. right.
    split; [done|]. split; [done|]. split; [done|]. split; [exact Hobj|]. split; [eauto|].
    split; [done|].
    intros _ Hn. destruct (plain_comp_spec _ Hn) as (Hs & N1 & N2 & N3).
    unfold t in Ec. rewrite (path_join_plain tdir (name_of f)) in Ec by done.
    destruct (unique_target_plain (st_fs s3) tdir (name_of f) Hn) as (x & Ht & _ & Hfree).
    rewrite Ht in Ec, Hfree.
    assert (Hft : st_fs s3 !! (tdir ++ [x])%list = None).
    { unfold path_exists, kind in Hfree. destruct (tdir ++ [x])%list eqn:Ex; [by destruct (snoc_ne tdir x)|].
      by destruct (st_fs s3 !! _). }
    assert (HBt : st_fs s4 !! (tdir ++ [x])%list = None)
      by (rewrite K4; [exact Hft|rewrite length_app; simpl; lia]).
    destruct (shutil_copy2_fresh _ _ _ _ _ HBt (snoc_ne tdir x) Ec) as [d ->]. simpl.
    intros p d' Hp. assert (Hp4 : st_fs s4 !! p = Some (File d')) by (apply (grows_keeps _ _ G4); exact Hp).
    rewrite lookup_insert_ne; [exact Hp4|]. intros <-. congruence.
  - destruct (shutil_move f t s4) as [[u'|e2] s5] eqn:Ec.
    2:{ apply shutil_move_exc in Ec. injection H as <- <-. subst s5. rewrite E4. simpl.
        split; [done|]. split; [lia|]. left.
        repeat split; [exact G4|intros Hn; by destruct (Hobj Hn)]. }
    unfold bind, gets, now_iso, append_op, bump_moved, emit, modify in H. simpl in H.
    injection H as <- <-. simpl.
    pose proof (E5 := shutil_move_ok_state _ _ _ _ _ Ec).
    rewrite E5, E4. simpl. split; [done|]. split; [lia|]. right.
    split; [done|]. split; [done|]. split; [done|]. split; [exact Hobj|]. split; [eauto|].
    split; [done|]. discriminate.
Qed.

Lemma process_or_log_effect re dest o f (s s' : state) r :
  process_or_log re dest o f s = (r, s') ->
  r = Ok tt /\ st_types s' = st_types s /\ st_processed s <= st_processed s' /\
  ((st_ops s' = st_ops s /\ st_moved s' = st_moved s /\ grows (st_fs s) (st_fs s') /\
    ((forall kvs, st_types s <> JObj kvs) -> st_fs s' = st_fs s) /\
    (forall n, st_clock s' n = st_clock s n))
   \/ (st_moved s' = S (st_moved s) /\ st_processed s' = S (st_processed s) /\
       ((forall kvs, st_types s <> JObj kvs) -> False) /\
       (exists t cat, st_ops s' = (st_ops s ++ [record_json (st_clock s 0)
                         (if copy_files o then "copy" else "move") f t cat])%list) /\
       (forall n, st_clock s' n = st_clock s (S n)) /\
       (copy_files o = true -> plain_comp (name_of f) = true -> keeps_files (st_fs s) (st_fs s')))).
Proof.
  unfold process_or_log, try_except.
  destruct (process_file re dest o f s) as [r1 s1] eqn:E.
  pose proof (process_file_effect _ _ _ _ _ _ _ E) as (T & P & C).
  destruct r1 as [[]|e].
  - intros [= <- <-]. split; [done|]. split; [done|]. split; [done|].
    destruct C as [C|(_ & C)]; [left|right]; exact C.
  - unfold bind, emit, modify. simpl. intros [= <- <-]. simpl.
    split; [done|]. split; [done|]. split; [done|].
    destruct C as [C|(Hr & _)]; [left; exact C|discriminate].
Qed.

Lemma organize_loop_effect re dest o : forall todo (s s' : state) r,
  organize_loop re dest o todo s = (r, s') ->
  r = Ok tt /\ st_types s' = st_types s /\
  exists new, st_ops s' = (st_ops s ++ new)%list /\ st_moved s' = st_moved s + length new /\
    st_processed s + length new <= st_processed s' /\
    (forall i x, new !! i = Some x -> exists f t cat, f ∈ todo /\
       x = record_json (st_clock s i) (if copy_files o then "copy" else "move") f t cat) /\
    (forall n, st_clock s' n = st_clock s (length new + n)) /\
    ((forall kvs, st_types s <> JObj kvs) -> st_fs s' = st_fs s /\ new = []) /\
    (copy_files o = true -> Forall (fun f => plain_comp (name_of f) = true) todo ->
       keeps_files (st_fs s) (st_fs s')).
Proof.
  induction todo as [|f rest IH]; intros s s' r H; simpl in H.
  - injection H as <- <-. split; [done|]. split; [done|]. exists [].
    rewrite app_nil_r. simpl. split; [done|]. split; [lia|]. split; [lia|].
    split; [done|]. split; [done|]. split; [done|]. intros _ _ p d Hp. exact Hp.
  - unfold bind at 1 in H. destruct (process_or_log re dest o f s) as [r1 s1] eqn:E.
    destruct (process_or_log_effect _ _ _ _ _ _ _ E) as (-> & T1 & P1 & C1).
    destruct (IH s1 s' r H) as (-> & T2 & new & O2 & M2 & P2 & F2 & N2 & J2 & K2).
    split; [done|]. split; [congruence|].
    destruct C1 as [(O1 & M1 & G1 & J1 & N1)|(M1 & Pr1 & J1 & (t & cat & O1) & N1 & K1)].
    + exists new. split; [congruence|]. split; [lia|]. split; [lia|].
      split; [intros i x Hx; destruct (F2 i x Hx) as (g & t & cat & Hg & ->);
              exists g, t, cat; split; [by right|by rewrite N1]|].
      split; [intros n; by rewrite N2, N1|].
      split; [intros Hn; rewrite T1 in J2; destruct (J2 Hn) as [-> ->]; split; [by apply J1|done]|].
      intros Hc Hpl. apply Forall_cons in Hpl as [_ Hpl].
      eapply keeps_files_trans; [apply grows_keeps; exact G1|exact (K2 Hc Hpl)].
    + exists (record_json (st_clock s 0) (if copy_files o then "copy" else "move") f t cat :: new).
      split; [rewrite O2, O1; by rewrite <- app_assoc|]. simpl. split; [lia|]. split; [lia|].
      split; [intros [|i] x Hx; simpl in Hx;
              [injection Hx as <-; exists f, t, cat; split; [left|done]
              |destruct (F2 i x Hx) as (g & t' & cat' & Hg & ->);
               exists g, t', cat'; split; [by right|by rewrite N1]]|].
      split; [intros n; by rewrite N2, N1|].
      split; [intros Hn; by destruct (J1 Hn)|].
      intros Hc Hpl. apply Forall_cons in Hpl as [Hf Hpl].
      eapply keeps_files_trans; [exact (K1 Hc Hf)|exact (K2 Hc Hpl)].
Qed.

Lemma organize_files_effect re src dest o listing (s s' : state) r :
  organize_files re src dest o listing s = (r, s') ->
  (r = Exc FileNotFoundError \/ r = Exc NotADirectoryError) /\ s' = s /\ is_dir (st_fs s) src = false \/
  (exists e, listing = Exc e /\ r = Exc e /\ s' = s /\ is_dir (st_fs s) src = true) \/
  exists files s1, listing = Ok files /\ is_dir (st_fs s) src = true /\ st_fs s1 = st_fs s /\
    st_ops s1 = st_ops s /\ st_types s1 = st_types s /\
    st_clock s1 = st_clock s /\ st_moved s1 = 0 /\ st_processed s1 = 0 /\
    organize_loop re dest o files s1 = (Ok tt, s') /\ r = Ok (st_processed s', st_moved s').
Proof.
  unfold organize_files, bind at 1, get_fs, gets. cbn [fst snd].
  destruct (path_exists (st_fs s) src) eqn:Hex;
    [|intros [= <- <-]; left; split; [auto|]; split; [done|];
      unfold path_exists, is_dir in *; by destruct (kind (st_fs s) src) as [[]|]].
  destruct (is_dir (st_fs s) src) eqn:Hd; [|intros [= <- <-]; left; auto]. simpl.
  destruct listing as [files|e];
    [|unfold bind at 1, lift_res; cbn [fst snd]; intros [= <- <-]; right; left; by exists e].
  rewrite bind_lift_ok. cbv beta.
  unfold bind at 1, emit, modify. cbn [fst snd].
  unfold bind at 1, modify. cbn [fst snd].
  set (s1 := set_counters 0 0 _).
  unfold bind. destruct (organize_loop re dest o files s1) as [r1 s2] eqn:E.
  destruct (organize_loop_effect _ _ _ _ _ _ _ E) as (-> & _).
  unfold gets. intros [= <- <-]. right. right. exists files, s1. repeat split; done.
Qed.

(** X5. A completed [organize_files] run reports files_moved <=
    files_processed and appends exactly files_moved ledger records, each for
    a listed file and labelled copy or move as the options say; the i-th new
    record is stamped with the i-th reading of the clock, and the run reads
    the clock once per record. *)
Theorem organize_files_ledger re src dest o files (s s' : state) processed moved :
  organize_files re src dest o (Ok files) s = (Ok (processed, moved), s') ->
  moved <= processed /\
  exists new, st_ops s' = (st_ops s ++ new)%list /\ length new = moved /\
    (forall i x, new !! i = Some x -> exists f t cat, f ∈ files /\
       x = record_json (st_clock s i) (if copy_files o then "copy" else "move") f t cat) /\
    (forall n, st_clock s' n = st_clock s (moved + n)).
Proof.
  intros H. destruct (organize_files_effect _ _ _ _ _ _ _ _ H)
    as [[[E|E] _]|[(e & E & _)|(fs & s1 & [= <-] & _ & F1 & O1 & T1 & N1 & M1 & P1 & E & R)]];
    try discriminate.
  injection R as -> ->.
  destruct (organize_loop_effect _ _ _ _ _ _ _ E) as (_ & _ & new & O & M & P & Fa & Nc & _).
  split; [lia|]. exists new. split; [congruence|]. split; [lia|]. rewrite <- N1. split; [exact Fa|].
  intros n. rewrite Nc. f_equal. lia.
Qed.

(** X6. When the category table is not a JSON object, every candidate fails
    in [get_category] and is logged: the run changes neither the filesystem
    nor the ledger and reports files_moved = 0. *)
Theorem non_object_table_moves_nothing re src dest o listing (s s' : state) r :
  (forall kvs, st_types s <> JObj kvs) ->
  organize_files re src dest o listing s = (r, s') ->
  st_fs s' = st_fs s /\ st_ops s' = st_ops s /\ (forall p m, r = Ok (p, m) -> m = 0).
Proof.
  intros Hn H. destruct (organize_files_effect _ _ _ _ _ _ _ _ H)
    as [[[-> | ->] [-> _]]|[(e & _ & -> & -> & _)|(fs & s1 & _ & _ & F1 & O1 & T1 & N1 & M1 & P1 & E & ->)]];
    [done|done|done|].
  destruct (organize_loop_effect _ _ _ _ _ _ _ E) as (_ & _ & new & O & M & P & Fa & _ & J & _).
  rewrite T1 in J. destruct (J Hn) as [Hf ->]. rewrite app_nil_r in O. simpl in M.
  split; [congruence|]. split; [congruence|]. intros p m [= _ <-]. lia.
Qed.

(** X7. A copy run over files with plain names never removes or alters an
    existing file: every file present before is present afterwards with the
    same contents. *)
Theorem copy_run_keeps_files re src dest o files (s s' : state) r :
  copy_files o = true -> Forall (fun f => plain_comp (name_of f) = true) files ->
  organize_files re src dest o (Ok files) s = (r, s') -> keeps_files (st_fs s) (st_fs s').
Proof.
  intros Hc Hp H. destruct (organize_files_effect _ _ _ _ _ _ _ _ H)
    as [[_ [-> _]]|[(e & _ & _ & -> & _)|(fs & s1 & [= <-] & _ & F1 & _ & _ & _ & _ & _ & E & _)]].
  - intros p d Hd. exact Hd.
  - intros p d Hd. exact Hd.
  - destruct (organize_loop_effect _ _ _ _ _ _ _ E) as (_ & _ & new & _ & _ & _ & _ & _ & _ & K).
    rewrite <- F1. exact (K Hc Hp).
Qed.

Lemma write_json_file_effect dump p j (s : state) r s' :
  write_json_file dump p j s = (r, s') ->
  (r = Ok tt /\ walk_parent (st_fs s) p = Ok tt /\ is_dir (st_fs s) p = false /\
     s' = set_fs (<[p := File (dump j)]> (st_fs s)) s) \/
  ((exists e, r = Exc e /\ exn_instance e CIOError = true) /\ s' = s).
Proof.
  unfold write_json_file, bind, get_fs, gets, raise, put_fs, modify. cbn [fst snd].
  destruct (walk_parent (st_fs s) p) as [[]|e] eqn:Hw.
  - unfold is_dir. destruct (kind _ p) as [[]|] eqn:Hk; intros [= <- <-].
    + left. by repeat split.
    + right. split; [by exists IsADirectoryError|done].
    + left. by repeat split.
  - intros [= <- <-]. right. split; [|done]. exists e. split; [done|].
    revert Hw. unfold walk_parent. generalize (@nil string). generalize (removelast p).
    induction l as [|c l IH]; intros acc; simpl; [done|].
    destruct (st_fs s !! (acc ++ [c])%list) as [[]|]; [by intros [= <-]|apply IH|by intros [= <-]].
Qed.

(** What [save_undo_log] does, whatever the state. *)
Lemma save_undo_log_effect dump lf (s : state) r s' :
  save_undo_log dump lf s = (r, s') ->
  r = Ok tt /\ st_ops s' = st_ops s /\ st_types s' = st_types s /\
  ((st_ops s = [] /\ s' = s) \/
   (st_fs s' = st_fs s) \/
   (walk_parent (st_fs s) lf = Ok tt /\ is_dir (st_fs s) lf = false /\
    st_fs s' = <[lf := File (dump (ledger_document (st_clock s 0) (st_ops s)))]> (st_fs s))).
Proof.
  unfold save_undo_log, bind at 1, gets. cbn [fst snd].
  destruct (st_ops s) as [|op ops] eqn:Ho.
  { intros [= <- <-]. split; [done|]. split; [done|]. split; [done|]. left. done. }
  unfold try_except, bind at 1, bind at 1, now_iso. cbn [fst snd].
  set (s1 := set_clock _ s).
  destruct (write_json_file _ _ _ s1) as [r1 s2] eqn:E.
  destruct (write_json_file_effect _ _ _ _ _ _ E) as [(-> & Hw & Hd & ->)|((e & -> & Hio) & ->)].
  - unfold bind, emit, modify. simpl. intros [= <- <-]. simpl.
    split; [done|]. split; [done|]. split; [done|]. right. right. done.
  - unfold bind. unfold except_tuple. cbn [forallb existsb is_exception_class andb]. rewrite Hio. cbn [orb].
    unfold emit, modify. intros [= <- <-]. simpl.
    split; [done|]. split; [done|]. split; [done|]. right. left. done.
Qed.

(** X9. [save_undo_log] never raises: it leaves the ledger and the category
    table unchanged and touches no path of the filesystem other than the log
    file. *)
Theorem save_undo_log_never_raises dump lf (s s' : state) r :
  save_undo_log dump lf s = (r, s') ->
  r = Ok tt /\ st_ops s' = st_ops s /\ st_types s' = st_types s /\
  forall q, q <> lf -> st_fs s' !! q = st_fs s !! q.
Proof.
  intros H. destruct (save_undo_log_effect _ _ _ _ _ H) as (-> & O & T & C).
  split; [done|]. split; [done|]. split; [done|]. intros q Hq.
  destruct C as [[_ ->]|[->|(_ & _ & ->)]]; [done|done|]. by rewrite lookup_insert_ne by congruence.
Qed.

Lemma write_json_file_ok dump p j (s : state) :
  walk_parent (st_fs s) p = Ok tt -> is_dir (st_fs s) p = false ->
  write_json_file dump p j s = (Ok tt, set_fs (<[p := File (dump j)]> (st_fs s)) s).
Proof.
  intros Hw Hd. unfold write_json_file, bind, get_fs, gets. cbn [fst snd]. rewrite Hw.
  unfold is_dir in Hd. by destruct (kind (st_fs s) p) as [[]|].
Qed.

Lemma save_undo_log_written dump lf (s : state) :
  st_ops s <> [] -> walk_parent (st_fs s) lf = Ok tt -> is_dir (st_fs s) lf = false ->
  save_undo_log dump lf s =
    (Ok tt, set_out (st_out s ++ [EvInfo "Undo log saved"])%list
              (set_fs (<[lf := File (dump (ledger_document (st_clock s 0) (st_ops s)))]> (st_fs s))
                 (set_clock (fun n => st_clock s (S n)) s))).
Proof.
  intros Hne Hw Hdir. unfold save_undo_log, bind at 1, gets. cbn [fst snd].
  destruct (st_ops s) as [|op ops] eqn:Ho; [done|].
  unfold try_except, bind, now_iso, gets, emit, modify. cbn [fst snd].
  rewrite write_json_file_ok by done. done.
Qed.

Lemma lookup_insert_file_walk fs lf n :
  walk_parent fs lf = Ok tt -> is_dir fs lf = false -> walk_parent (<[lf := n]> fs) lf = Ok tt.
Proof.
  intros Hw Hdir. eapply walk_dirs_mono; [|exact Hw]. intros q Hq.
  rewrite lookup_insert_ne; [done|]. intros ->. unfold is_dir, kind in Hdir.
  destruct q; [done|]. by rewrite Hq in Hdir.
Qed.

(** X10. When the log file's directory exists and the log path is not a
    directory, [save_undo_log] writes a document that reads back as the
    ledger document, whose operations field is the current ledger. *)
Theorem save_undo_log_round_trip dump lf (s : state) :
  (forall j, fcontent (dump j) = JsonText j) ->
  st_ops s <> [] -> walk_parent (st_fs s) lf = Ok tt -> is_dir (st_fs s) lf = false ->
  read_json_file (st_fs (snd (save_undo_log dump lf s))) lf = Ok (ledger_document (st_clock s 0) (st_ops s)) /\
  json_get_default (ledger_document (st_clock s 0) (st_ops s)) "operations" (JArr []) = Ok (JArr (st_ops s)).
Proof.
  intros Hd Hne Hw Hdir. split; [|reflexivity].
  rewrite save_undo_log_written by done. simpl.
  unfold read_json_file. rewrite lookup_insert_file_walk by done.
  assert (Hlf : lf <> []) by (intros ->; discriminate).
  unfold kind. destruct lf; [done|]. by rewrite lookup_insert_eq, Hd.
Qed.

Lemma undo_operations_unreadable lf dry (s : state) :
  read_json_file (st_fs s) lf = Exc FileNotFoundError \/ read_json_file (st_fs s) lf = Exc JSONDecodeError ->
  undo_operations lf dry s = (Ok 0, set_out (st_out s ++ [EvError "Error reading undo log"])%list s).
Proof.
  intros H. unfold undo_operations, try_except, bind, get_fs, gets, lift_res. cbn [fst snd].
  destruct H as [H|H]; rewrite H; reflexivity.
Qed.

(** X11. When the undo log is missing, or is valid UTF-8 text that is not
    JSON, [undo_operations] returns 0 in either mode, prints one error and
    changes nothing else (a log that is not UTF-8 raises instead, X20). *)
Theorem undo_unreadable_log_returns_zero lf dry (s : state) :
  read_json_file (st_fs s) lf = Exc FileNotFoundError \/ read_json_file (st_fs s) lf = Exc JSONDecodeError ->
  undo_operations lf dry s = (Ok 0, set_out (st_out s ++ [EvError "Error reading undo log"])%list s).
Proof. apply undo_operations_unreadable. Qed.

Lemma json_get_obj_exc kvs k e : json_get (JObj kvs) k = Exc e -> e = KeyError.
Proof. unfold json_get. by destruct (dict_get _ _); intros [= <-]. Qed.

Definition lacks_field (op : json) : Prop :=
  json_get op "source" = Exc KeyError \/ json_get op "destination" = Exc KeyError \/
  json_get op "operation" = Exc KeyError.

Lemma undo_loop_keyerror dry : forall ops c (s : state),
  Forall (fun op => exists kvs, op = JObj kvs) ops -> Exists lacks_field ops ->
  exists s', undo_loop dry ops c s = (Exc KeyError, s').
Proof.
  induction ops as [|op ops IH]; intros c s Hall Hex; [inversion Hex|].
  apply Forall_cons in Hall as [[kvs ->] Hall]. cbn [undo_loop]. unfold bind at 1, lift_res.
  destruct (json_get (JObj kvs) "source") as [src|e] eqn:E1;
    [|apply json_get_obj_exc in E1; subst; eauto].
  unfold bind at 1, lift_res.
  destruct (json_get (JObj kvs) "destination") as [dst|e] eqn:E2;
    [|apply json_get_obj_exc in E2; subst; eauto].
  unfold bind at 1, lift_res.
  destruct (json_get (JObj kvs) "operation") as [t|e] eqn:E3;
    [|apply json_get_obj_exc in E3; subst; eauto].
  apply Exists_cons in Hex as [Hl|Hex]; [unfold lacks_field in Hl; rewrite E1, E2, E3 in Hl; naive_solver|].
  destruct dry.
  - unfold bind, emit, modify. apply IH; done.
  - unfold bind at 1, try_except.
    destruct (undo_record src dst t s) as [[b|e] s2]; [apply IH; done|].
    unfold bind, emit, modify, ret. simpl. apply IH; done.
Qed.

(** X12. When every ledger record of the log is a JSON object and one of
    them lacks its source, destination or operation field, [undo_operations]
    returns 0, whatever records it undid before reaching that one: the
    KeyError ends the whole undo and its handler returns 0 (a record that is
    not an object raises TypeError instead, X21). *)
Theorem undo_missing_field_returns_zero lf dry (s : state) log_data ops :
  read_json_file (st_fs s) lf = Ok log_data ->
  json_get_default log_data "operations" (JArr []) = Ok (JArr ops) ->
  Forall (fun op => exists kvs, op = JObj kvs) ops -> Exists lacks_field ops ->
  fst (undo_operations lf dry s) = Ok 0.
Proof.
  intros Hr Ho Hall Hex. unfold undo_operations, try_except, bind at 1, get_fs, gets. cbn [fst snd].
  unfold bind at 1, lift_res. rewrite Hr. unfold undo_body, bind at 1, lift_res. rewrite Ho.
  unfold bind at 1. cbn [py_reversed].
  destruct (undo_loop_keyerror dry (rev ops) 0 s) as [s' E];
    [by apply Forall_rev|by apply Exists_rev|].
  unfold bind at 1. rewrite E. reflexivity.
Qed.

(** X20. A log file whose bytes are not valid UTF-8 makes [undo_operations]
    raise UnicodeDecodeError, in either mode: reading it fails before
    [json.load] and none of the handlers catches the error; the state is
    unchanged. *)
Theorem undo_non_utf8_log_raises lf dry d (s : state) :
  walk_parent (st_fs s) lf = Ok tt -> kind (st_fs s) lf = Some (File d) -> fcontent d = NotUtf8 ->
  undo_operations lf dry s = (Exc UnicodeDecodeError, s).
Proof.
  intros Hw Hk Hc. unfold undo_operations, try_except, bind, get_fs, gets, lift_res. cbn [fst snd].
  unfold read_json_file. by rewrite Hw, Hk, Hc.
Qed.

(** X21. When the log is an object whose operations list ends with a value
    that is not a JSON object, [undo_operations] raises TypeError, in either
    mode: that record is processed first, [operation['source']] fails on it,
    and none of the handlers catches TypeError; the state is unchanged. *)
Theorem undo_non_object_record_raises lf dry log_data ops op (s : state) :
  read_json_file (st_fs s) lf = Ok log_data ->
  json_get_default log_data "operations" (JArr []) = Ok (JArr (ops ++ [op])) ->
  (forall kvs, op <> JObj kvs) ->
  undo_operations lf dry s = (Exc TypeError, s).
Proof.
  intros Hr Ho Hn. unfold undo_operations, try_except, bind at 1, get_fs, gets. cbn [fst snd].
  unfold bind at 1, lift_res. rewrite Hr. unfold undo_body, bind at 1, lift_res. rewrite Ho.
  unfold bind at 1. cbn [py_reversed]. rewrite rev_unit. cbn [undo_loop].
  unfold bind at 1, lift_res.
  destruct op as [| | | | |kvs]; try reflexivity. by destruct (Hn kvs).
Qed.

Definition fresh_state (s : state) : state :=
  set_ops [] (set_types (table_json DEFAULT_FILE_TYPES) s).

Lemma init_organizer_none (s : state) : init_organizer None s = (Ok tt, fresh_state s).
Proof. reflexivity. Qed.

Lemma truthy_some (x : string) : x <> "" -> truthy (Some x) = true.
Proof. intros H. unfold truthy. by apply negb_true_iff, String.eqb_neq. Qed.

(** The organize branch of [main], once the organizer exists and the
    configuration step has run. *)
Lemma main_organize_unfold re dump cwd files a (s : state) src :
  truthy (arg_undo a) = false -> arg_source a = Some src -> src <> "" ->
  main re dump cwd files a s =
  (let* _ := (if truthy (arg_config a)
              then let* _ := load_config (path_join cwd (opt_str (arg_config a))) in ret tt
              else ret tt) in
   try_except
      (let options := mkOptions (arg_dry_run a) (arg_recursive a) (arg_copy a)
                        (arg_pattern a) (arg_exclude a)
                        (arg_min_size a) (arg_max_size a) in
       let* r := organize_files re (path_join cwd src)
                   (path_join cwd (arg_dest a)) options files in
       let '(files_processed, files_moved) := r in
       if arg_dry_run a then
         let* _ := emit (EvInfo ("[Dry Run] Found " ++ pretty files_processed
                                 ++ " files that would be organized")) in
         ret (ReturnCode 0)
       else
         let* _ := emit (EvInfo "Organization complete!") in
         let* _ := emit (EvInfo ("Files processed: " ++ pretty files_processed)) in
         let* _ := emit (EvInfo ("Files " ++ (if arg_copy a then "copied" else "moved")
                                 ++ ": " ++ pretty files_moved)) in
         let* _ := (if truthy (arg_save_log a) && Nat.ltb 0 files_moved
                    then save_undo_log dump (path_join cwd (opt_str (arg_save_log a)))
                    else ret tt) in
         ret (ReturnCode 0))
      (fun e => match e with
                | FileNotFoundError | NotADirectoryError =>
                    let* _ := emit (EvError "Error") in ret (ReturnCode 1)
                | _ =>
                    let* _ := emit (EvError "Unexpected error") in ret (ReturnCode 1)
                end)) (fresh_state s).
Proof.
  intros Hu Hs Hne. unfold main. rewrite Hu, Hs, (truthy_some _ Hne). cbn [negb opt_str].
  by rewrite (bind_ok _ _ _ _ _ (init_organizer_none s)).
Qed.

Lemma load_config_fs p (s s' : state) r : load_config p s = (r, s') -> st_fs s' = st_fs s.
Proof.
  unfold load_config, try_except, bind, get_fs, gets, lift_res, emit, modify, ret, raise, except_tuple.
  simpl. intros H. repeat (case_match; unfold raise in *; simpl in *; simplify_eq/=); done.
Qed.

(** X13. In organize mode without a configuration file, [main] returns 0
    when the source path is an existing directory whose listing succeeds,
    and 1 otherwise (a missing source, a source that is not a directory, or
    a listing that raises, e.g. PermissionError); no exception escapes. *)
Theorem main_exit_code re dump cwd files a (s : state) src :
  truthy (arg_undo a) = false -> arg_source a = Some src -> src <> "" -> truthy (arg_config a) = false ->
  fst (main re dump cwd files a s) =
    Ok (ReturnCode (if is_dir (st_fs s) (path_join cwd src)
                    then match files with Ok _ => 0 | Exc _ => 1 end else 1)).
Proof.
  intros Hu Hs Hne Hc. rewrite (main_organize_unfold _ _ _ _ _ _ _ Hu Hs Hne), Hc.
  rewrite (bind_ok _ _ (fresh_state s) (fresh_state s) tt) by reflexivity. cbv beta zeta.
  unfold try_except.
  set (o := mkOptions (arg_dry_run a) (arg_recursive a) (arg_copy a) (arg_pattern a)
              (arg_exclude a) (arg_min_size a) (arg_max_size a)).
  destruct (organize_files re (path_join cwd src) (path_join cwd (arg_dest a)) o files (fresh_state s))
    as [r s1] eqn:E.
  destruct (organize_files_effect _ _ _ _ _ _ _ _ E)
    as [[[-> | ->] [-> Hd]]|[(e & -> & -> & -> & Hd)|(fl & s2 & -> & Hd & _ & _ & _ & _ & _ & _ & _ & ->)]].
  - rewrite (bind_exc _ _ _ _ _ E). simpl in Hd. rewrite Hd. reflexivity.
  - rewrite (bind_exc _ _ _ _ _ E). simpl in Hd. rewrite Hd. reflexivity.
  - rewrite (bind_exc _ _ _ _ _ E). simpl in Hd. rewrite Hd. by destruct e.
  - rewrite (bind_ok _ _ _ _ _ E). simpl in Hd. rewrite Hd. cbv beta.
    destruct (arg_dry_run a); [reflexivity|].
    unfold bind at 1 2 3, emit, modify. cbn [fst snd].
    destruct (truthy (arg_save_log a) && Nat.ltb 0 (st_moved s1)); [|reflexivity].
    unfold bind.
    destruct (save_undo_log dump _ _) as [r3 s3] eqn:E3.
    destruct (save_undo_log_effect _ _ _ _ _ E3) as (-> & _). reflexivity.
Qed.

(** X14. In organize mode, a configuration file that exists but cannot be
    loaded makes [main] raise TypeError before organizing anything: the
    filesystem is unchanged and the ledger is empty. *)
Theorem main_bad_config_raises re dump cwd files a (s : state) src cfg :
  truthy (arg_undo a) = false -> arg_source a = Some src -> src <> "" ->
  arg_config a = Some cfg -> cfg <> "" ->
  path_exists (st_fs s) (path_join cwd cfg) = true ->
  (exists e, read_json_file (st_fs s) (path_join cwd cfg) = Exc e) ->
  exists s', main re dump cwd files a s = (Exc TypeError, s') /\ st_fs s' = st_fs s /\ st_ops s' = [].
Proof.
  intros Hu Hs Hne Hc Hcne Hex [e He]. rewrite (main_organize_unfold _ _ _ _ _ _ _ Hu Hs Hne), Hc.
  rewrite (truthy_some _ Hcne). cbn [opt_str].
  assert (Hl : load_config (path_join cwd cfg) (fresh_state s) = (Exc TypeError, fresh_state s)).
  { unfold load_config, try_except, bind, get_fs, gets, lift_res. cbn [fst snd st_fs fresh_state set_ops set_types].
    change (st_fs (fresh_state s)) with (st_fs s). rewrite Hex, He. reflexivity. }
  unfold bind at 1. unfold bind at 1. rewrite Hl. exists (fresh_state s). done.
Qed.

(** X15. In undo mode with a log that is missing, or is valid UTF-8 text
    that is not JSON, [main] returns None and the filesystem is unchanged. *)
Theorem main_undo_unreadable_log re dump cwd files a (s : state) u :
  arg_undo a = Some u -> u <> "" ->
  read_json_file (st_fs s) (path_join cwd u) = Exc FileNotFoundError \/
  read_json_file (st_fs s) (path_join cwd u) = Exc JSONDecodeError ->
  exists s', main re dump cwd files a s = (Ok ReturnNone, s') /\ st_fs s' = st_fs s.
Proof.
  intros Hu Hne Hr. unfold main. rewrite Hu, (truthy_some _ Hne). cbn [opt_str].
  rewrite (bind_ok _ _ _ _ _ (init_organizer_none s)).
  rewrite (bind_ok _ _ _ _ _ (undo_operations_unreadable _ (arg_dry_run a) (fresh_state s) Hr)).
  unfold bind, emit, modify, ret. cbn [fst snd]. eexists. split; [reflexivity|]. done.
Qed.

Lemma undo_operations_dry_fs lf (s s' : state) r :
  undo_operations lf true s = (r, s') -> st_fs s' = st_fs s.
Proof.
  intros E. pose proof (f_equal (fun p => st_fs (snd p)) E) as H. simpl in H. rewrite <- H.
  clear E H. unfold undo_operations, try_except, bind, get_fs, gets, lift_res; simpl.
  destruct (read_json_file (st_fs s) lf) as [log_data|e].
  - unfold undo_body, bind, lift_res.
    destruct (json_get_default log_data "operations" (JArr [])) as [operations|e].
    2:{ unfold undo_handler, bind, emit, modify, ret, raise. by destruct e. }
    destruct (py_reversed operations) as [ops|e].
    2:{ unfold undo_handler, bind, emit, modify, ret, raise. by destruct e. }
    pose proof (undo_loop_dry ops 0 s) as (_ & Hfs & _).
    destruct (undo_loop true ops 0 s) as [[n|e] s1] eqn:Hl; simpl in *.
    + done.
    + unfold undo_handler, bind, emit, modify, ret, raise. by destruct e.
  - unfold undo_handler, bind, emit, modify, ret, raise. by destruct e.
Qed.

Lemma organize_files_dry_fs re src dest o files (s s' : state) r :
  dry_run o = true -> organize_files re src dest o files s = (r, s') -> st_fs s' = st_fs s.
Proof.
  intros Hdry E.
  destruct (organize_files_effect _ _ _ _ _ _ _ _ E)
    as [(_ & -> & _)|[(e & _ & _ & -> & _)|(fl & s1 & -> & _ & Hfs & _ & _ & _ & _ & _ & Hl & _)]];
    [done|done|].
  destruct (organize_loop_dry re dest o fl s1 fl Hdry (fun f H => H)) as [_ D].
  rewrite Hl in D. destruct D as (D & _). simpl in D. congruence.
Qed.

(** X16. With --dry-run, [main] never changes the filesystem, in undo mode
    and in organize mode, with or without a configuration file or --save-
    log. *)
Theorem main_dry_run_no_mutation re dump cwd files a (s s' : state) r :
  arg_dry_run a = true -> main re dump cwd files a s = (r, s') -> st_fs s' = st_fs s.
Proof.
  intros Hdry. unfold main. rewrite Hdry.
  destruct (truthy (arg_undo a)).
  - rewrite (bind_ok _ _ _ _ _ (init_organizer_none s)).
    unfold bind at 1.
    destruct (undo_operations _ true (fresh_state s)) as [r1 s1] eqn:E.
    apply undo_operations_dry_fs in E. destruct r1; [|intros [= _ <-]; done].
    unfold bind, emit, modify, ret. intros [= _ <-]. simpl. done.
  - destruct (negb (truthy (arg_source a))); [intros [= _ <-]; done|].
    rewrite (bind_ok _ _ _ _ _ (init_organizer_none s)).
    assert (Hc : forall (c : M unit) (k : unit -> M main_result) s2,
      (forall r1 s1, c s2 = (r1, s1) -> st_fs s1 = st_fs s2) ->
      (forall s1 r' s'', st_fs s1 = st_fs s2 -> k tt s1 = (r', s'') -> st_fs s'' = st_fs s2) ->
      forall r' s'', bind c k s2 = (r', s'') -> st_fs s'' = st_fs s2).
    { intros c k s2 Hcf Hk r' s''. unfold bind.
      destruct (c s2) as [r1 s1] eqn:E. specialize (Hcf _ _ eq_refl).
      destruct r1 as [[]|e].
      - by apply Hk.
      - intros [= _ <-]. exact Hcf. }
    intros Hm. change (st_fs s) with (st_fs (fresh_state s)). revert Hm. apply Hc.
    { destruct (truthy (arg_config a)).
      - intros r1 s1. unfold bind at 1.
        destruct (load_config _ (fresh_state s)) as [r2 s2] eqn:E.
        apply load_config_fs in E. destruct r2; [|intros [= _ <-]; done].
        unfold ret. intros [= _ <-]. done.
      - intros r1 s1 [= _ <-]. done. }
    intros s1 r' s'' Hs1. rewrite <- Hs1. clear Hs1.
    unfold try_except.
    set (o := mkOptions true (arg_recursive a) (arg_copy a) (arg_pattern a)
                (arg_exclude a) (arg_min_size a) (arg_max_size a)).
    destruct (organize_files re (path_join cwd (opt_str (arg_source a))) (path_join cwd (arg_dest a)) o files s1) as [[[p m]|e] s2] eqn:E;
      pose proof (organize_files_dry_fs _ _ _ o _ _ _ _ eq_refl E) as Hfs.
    + rewrite (bind_ok _ _ _ _ _ E). cbv beta.
      unfold bind, emit, modify, ret. simpl. intros [= _ <-]. done.
    + rewrite (bind_exc _ _ _ _ _ E).
      destruct e; unfold bind, emit, modify, ret; simpl; intros [= _ <-]; done.
Qed.

Lemma mainpy_category_plain e : plain_comp (MainPy.category_of e) = true.
Proof.
  unfold MainPy.category_of. destruct (List.find _ _) as [ce|] eqn:E; [|reflexivity].
  apply find_some in E as [Hin _]. unfold MainPy.FILE_TYPES in Hin.
  repeat (destruct Hin as [<-|Hin]; [reflexivity|]). destruct Hin.
Qed.

(** The target [main.py] computes for [f]: [dest/category/f.name]. *)
Definition mainpy_target (str_lower : string -> string) (dest f : path) : path :=
  (dest ++ [MainPy.category_of (str_lower (suffix_of (name_of f))); name_of f])%list.

Lemma mainpy_target_join str_lower dest f :
  plain_comp (name_of f) = true ->
  path_join (path_join dest (MainPy.category_of (str_lower (suffix_of (name_of f))))) (name_of f) =
  mainpy_target str_lower dest f.
Proof.
  intros Hn. destruct (plain_comp_spec _ (mainpy_category_plain (str_lower (suffix_of (name_of f)))))
    as (? & ? & ? & ?).
  destruct (plain_comp_spec _ Hn) as (? & ? & ? & ?).
  rewrite !path_join_plain by done. unfold mainpy_target. by rewrite <- app_assoc.
Qed.

(** X17. In [src/main.py], a live [organize] moves a file to
    [dest/category/name] without choosing a unique name: a file already
    there is replaced by the moved file. *)
Theorem mainpy_move_replaces_target str_lower dest f d (s : state) :
  kind (st_fs s) f = Some (File d) -> walk_parent (st_fs s) f = Ok tt ->
  plain_comp (name_of f) = true ->
  is_dir (st_fs s) (mainpy_target str_lower dest f) = false ->
  no_file_on (st_fs s) (parent_of (mainpy_target str_lower dest f)) = true ->
  exists s', MainPy.organize_entry str_lower dest false f s = (Ok tt, s') /\
    st_fs s' = <[mainpy_target str_lower dest f := File d]>
                 (delete f (add_dirs (st_fs s) (parent_of (mainpy_target str_lower dest f)))) /\
    st_fs s' !! mainpy_target str_lower dest f = Some (File d).
Proof.
  intros Hk Hw Hn Hd Hno.
  unfold MainPy.organize_entry, bind at 1, get_fs, gets. cbn [fst snd].
  unfold is_file. rewrite Hk. cbn [negb]. cbv zeta.
  rewrite mainpy_target_join by done.
  assert (Hp : path_join dest (MainPy.category_of (str_lower (suffix_of (name_of f)))) =
               parent_of (mainpy_target str_lower dest f)).
  { destruct (plain_comp_spec _ (mainpy_category_plain (str_lower (suffix_of (name_of f)))))
      as (? & ? & ? & ?).
    rewrite path_join_plain by done. unfold parent_of, mainpy_target.
    change [?a; ?b] with ([a] ++ [b])%list. by rewrite app_assoc, removelast_last. }
  rewrite Hp, (mkdir_move_file _ _ _ _ _ Hk Hw Hd Hno).
  eexists. split; [reflexivity|]. simpl. split; [done|]. by rewrite lookup_insert_eq.
Qed.

Lemma mainpy_entry_dry str_lower dest f (s : state) :
  exists s1, MainPy.organize_entry str_lower dest true f s = (Ok tt, s1) /\ st_fs s1 = st_fs s.
Proof.
  unfold MainPy.organize_entry, bind, get_fs, gets. cbn [fst snd].
  destruct (is_file (st_fs s) f); cbn [negb]; eexists; split; reflexivity.
Qed.

Lemma mainpy_loop_dry str_lower dest entries (s : state) :
  fst (MainPy.organize_loop str_lower dest true entries s) = Ok tt /\
  st_fs (snd (MainPy.organize_loop str_lower dest true entries s)) = st_fs s.
Proof.
  revert s. induction entries as [|f rest IH]; intros s; [done|].
  cbn [MainPy.organize_loop]. destruct (mainpy_entry_dry str_lower dest f s) as (s1 & E & Hf).
  rewrite (bind_ok _ _ _ _ _ E), <- Hf. exact (IH _).
Qed.

(** X18. In [src/main.py], a dry run of [organize] leaves the filesystem
    unchanged; it succeeds exactly when the source is a directory and its
    listing succeeds, and otherwise raises; when the source is not a
    directory, or the listing raises, the state is unchanged. *)
Theorem mainpy_dry_run_no_mutation str_lower src dest entries (s s' : state) r :
  MainPy.organize str_lower src dest true entries s = (r, s') ->
  st_fs s' = st_fs s /\
  (r = Ok tt <-> is_dir (st_fs s) src = true /\ exists es, entries = Ok es) /\
  (is_dir (st_fs s) src = false -> s' = s) /\
  (forall e, entries = Exc e -> s' = s).
Proof.
  unfold MainPy.organize, bind at 1, get_fs, gets. cbn [fst snd].
  destruct (path_exists (st_fs s) src) eqn:Hex; cbn [negb].
  2:{ unfold raise. intros [= <- <-]. split; [done|]. split; [|done].
      split; [discriminate|]. unfold path_exists, is_dir in *. intros [Hd _].
      by destruct (kind (st_fs s) src) as [[]|]. }
  destruct (is_dir (st_fs s) src) eqn:Hd; cbn [negb].
  2:{ unfold raise. intros [= <- <-]. split; [done|]. split; [|done].
      split; [discriminate|]. by intros [? _]. }
  destruct entries as [es|e].
  2:{ unfold bind, lift_res. intros [= <- <-]. split; [done|]. split; [|done].
      split; [discriminate|]. by intros [_ [? ?]]. }
  rewrite bind_lift_ok. cbv beta.
  pose proof (mainpy_loop_dry str_lower dest es s) as [Hr Hf].
  intros E. rewrite E in Hr, Hf. simpl in Hr, Hf. subst r.
  split; [done|]. split; [split; [intros _; eauto|done]|]. split; [done|]. discriminate.
Qed.

Definition args_ex (source : option string) (dry : bool) (config undo : option string) : args :=
  mkArgs source "out" dry false false None None None None config None undo.

Lemma organize_files_ledger_witness :
  let s0 := ex_state ex_fs_flat in
  let R := organize_files re_literal ["s"] ["out"] (no_filters false false false) (Ok ex_listing_flat) s0 in
  R = (Ok (2, 2), snd R) /\
  (2 <= 2 /\ exists new, st_ops (snd R) = (st_ops s0 ++ new)%list /\ length new = 2 /\
    (forall i x, new !! i = Some x -> exists f t cat, f ∈ ex_listing_flat /\
       x = record_json (st_clock s0 i) "move" f t cat) /\
    (forall n, st_clock (snd R) n = st_clock s0 (2 + n))).
Proof.
  intros s0 R. assert (H : R = (Ok (2, 2), snd R)) by (vm_compute; reflexivity).
  split; [exact H|]. exact (organize_files_ledger _ _ _ _ _ _ _ _ _ H).
Defined.

Lemma non_object_table_moves_nothing_witness :
  let s0 := set_types (JArr []) (ex_state ex_fs_flat) in
  let R := organize_files re_literal ["s"] ["out"] (no_filters false false false) (Ok ex_listing_flat) s0 in
  fst R = Ok (2, 0) /\
  (st_fs (snd R) = st_fs s0 /\ st_ops (snd R) = st_ops s0 /\
   forall p m, fst R = Ok (p, m) -> m = 0).
Proof.
  intros s0 R. split; [vm_compute; reflexivity|].
  apply (non_object_table_moves_nothing re_literal ["s"] ["out"] (no_filters false false false) (Ok ex_listing_flat) s0 (snd R) (fst R)).
  - intros kvs. discriminate.
  - apply surjective_pairing.
Defined.

Lemma copy_run_keeps_files_witness :
  let s0 := ex_state ex_fs_flat in
  let R := organize_files re_literal ["s"] ["out"] (no_filters false true false) (Ok ex_listing_flat) s0 in
  fst R = Ok (2, 2) /\ keeps_files (st_fs s0) (st_fs (snd R)).
Proof.
  intros s0 R. split; [vm_compute; reflexivity|].
  apply (copy_run_keeps_files re_literal ["s"] ["out"] (no_filters false true false) ex_listing_flat s0 (snd R) (fst R)).
  - reflexivity.
  - repeat constructor.
  - apply surjective_pairing.
Defined.

Lemma save_undo_log_never_raises_witness :
  let s0 := set_ops [JStr "op"] (ex_state ex_fs_flat) in
  let R := save_undo_log dump_ex ["s"] s0 in
  st_out (snd R) = [EvError "Error saving undo log"] /\
  (fst R = Ok tt /\ st_ops (snd R) = st_ops s0 /\ st_types (snd R) = st_types s0 /\
   forall q, q <> ["s"] -> st_fs (snd R) !! q = st_fs s0 !! q).
Proof.
  intros s0 R. split; [vm_compute; reflexivity|].
  apply (save_undo_log_never_raises dump_ex ["s"] s0 (snd R) (fst R)). apply surjective_pairing.
Defined.

Lemma save_undo_log_round_trip_witness :
  let s0 := set_ops [JStr "op"] (ex_state ex_fs_flat) in
  (forall j, fcontent (dump_ex j) = JsonText j) /\ st_ops s0 <> [] /\
  walk_parent (st_fs s0) ["log.json"] = Ok tt /\ is_dir (st_fs s0) ["log.json"] = false /\
  (read_json_file (st_fs (snd (save_undo_log dump_ex ["log.json"] s0))) ["log.json"] =
     Ok (ledger_document (st_clock s0 0) (st_ops s0)) /\
   json_get_default (ledger_document (st_clock s0 0) (st_ops s0)) "operations" (JArr []) =
     Ok (JArr (st_ops s0))).
Proof.
  intros s0.
  assert (Hd : forall j, fcontent (dump_ex j) = JsonText j) by reflexivity.
  assert (Ho : st_ops s0 <> []) by discriminate.
  assert (Hw : walk_parent (st_fs s0) ["log.json"] = Ok tt) by (vm_compute; reflexivity).
  assert (Hi : is_dir (st_fs s0) ["log.json"] = false) by (vm_compute; reflexivity).
  split; [exact Hd|]. split; [exact Ho|]. split; [exact Hw|]. split; [exact Hi|].
  exact (save_undo_log_round_trip _ _ _ Hd Ho Hw Hi).
Defined.

Lemma undo_unreadable_log_returns_zero_witness :
  let s0 := ex_state ex_fs_flat in
  read_json_file (st_fs s0) ["s"; "a.txt"] = Exc JSONDecodeError /\
  undo_operations ["s"; "a.txt"] false s0 =
    (Ok 0, set_out (st_out s0 ++ [EvError "Error reading undo log"])%list s0).
Proof.
  intros s0. assert (H : read_json_file (st_fs s0) ["s"; "a.txt"] = Exc JSONDecodeError)
    by (vm_compute; reflexivity).
  split; [exact H|]. apply undo_unreadable_log_returns_zero. right. exact H.
Defined.

Lemma undo_missing_field_returns_zero_witness :
  let log := JObj [("operations", JArr [JObj [("source", JStr "/s/a.txt")]])] in
  let s0 := ex_state (<[["log.json"] := File (mkFile 9 100 (JsonText log))]> ex_fs_flat) in
  read_json_file (st_fs s0) ["log.json"] = Ok log /\
  json_get_default log "operations" (JArr []) = Ok (JArr [JObj [("source", JStr "/s/a.txt")]]) /\
  fst (undo_operations ["log.json"] false s0) = Ok 0.
Proof.
  intros log s0.
  assert (Hr : read_json_file (st_fs s0) ["log.json"] = Ok log) by (vm_compute; reflexivity).
  assert (Hg : json_get_default log "operations" (JArr []) = Ok (JArr [JObj [("source", JStr "/s/a.txt")]]))
    by (vm_compute; reflexivity).
  split; [exact Hr|]. split; [exact Hg|].
  apply (undo_missing_field_returns_zero _ _ _ _ _ Hr Hg).
  - repeat constructor. eexists. reflexivity.
  - constructor. right. left. vm_compute. reflexivity.
Defined.

Lemma main_exit_code_witness :
  fst (main re_literal dump_ex [] (Ok ex_listing_flat) (args_ex (Some "s") false None None) (ex_state ex_fs_flat))
    = Ok (ReturnCode 0) /\
  fst (main re_literal dump_ex [] (Ok ex_listing_flat) (args_ex (Some "t") false None None) (ex_state ex_fs_flat))
    = Ok (ReturnCode 1) /\
  fst (main re_literal dump_ex [] (Exc PermissionError) (args_ex (Some "s") false None None) (ex_state ex_fs_flat))
    = Ok (ReturnCode 1).
Proof.
  split; [|split].
  - rewrite (main_exit_code _ _ _ _ _ _ "s"); try reflexivity. discriminate.
  - rewrite (main_exit_code _ _ _ _ _ _ "t"); try reflexivity. discriminate.
  - rewrite (main_exit_code _ _ _ _ _ _ "s"); try reflexivity. discriminate.
Defined.

Lemma main_bad_config_raises_witness :
  let s0 := ex_state ex_fs_flat in
  exists s', main re_literal dump_ex [] (Ok ex_listing_flat) (args_ex (Some "s") false (Some "s/a.txt") None) s0
    = (Exc TypeError, s') /\ st_fs s' = st_fs s0 /\ st_ops s' = [].
Proof.
  intros s0. apply (main_bad_config_raises _ _ _ _ _ _ "s" "s/a.txt"); try reflexivity.
  - discriminate.
  - discriminate.
  - exists JSONDecodeError. vm_compute. reflexivity.
Defined.

Lemma main_undo_unreadable_log_witness :
  let s0 := ex_state ex_fs_flat in
  exists s', main re_literal dump_ex [] (Ok ex_listing_flat) (args_ex None false None (Some "log.json")) s0
    = (Ok ReturnNone, s') /\ st_fs s' = st_fs s0.
Proof.
  intros s0. apply (main_undo_unreadable_log _ _ _ _ _ _ "log.json"); [reflexivity|discriminate|].
  left. vm_compute. reflexivity.
Defined.

Lemma main_dry_run_no_mutation_witness :
  let s0 := ex_state ex_fs_flat in
  let R := main re_literal dump_ex [] (Ok ex_listing_flat) (args_ex (Some "s") true None None) s0 in
  fst R = Ok (ReturnCode 0) /\ st_fs (snd R) = st_fs s0.
Proof.
  intros s0 R. split; [vm_compute; reflexivity|].
  apply (main_dry_run_no_mutation re_literal dump_ex [] (Ok ex_listing_flat) (args_ex (Some "s") true None None) s0 (snd R) (fst R)); [reflexivity|]. apply surjective_pairing.
Defined.

Definition ex_fs_occupied : gmap path node :=
  <[["out"] := Dir]> (<[["out"; "Documents"] := Dir]>
    (<[["out"; "Documents"; "a.txt"] := ex_file 2]> ex_fs_flat)).

Lemma mainpy_move_replaces_target_witness :
  let s0 := ex_state ex_fs_occupied in
  st_fs s0 !! ["out"; "Documents"; "a.txt"] = Some (ex_file 2) /\
  exists s', MainPy.organize_entry ascii_lower ["out"] false ["s"; "a.txt"] s0 = (Ok tt, s') /\
    st_fs s' = <[mainpy_target ascii_lower ["out"] ["s"; "a.txt"] := ex_file 1]>
                 (delete ["s"; "a.txt"] (add_dirs (st_fs s0) (parent_of (mainpy_target ascii_lower ["out"] ["s"; "a.txt"])))) /\
    st_fs s' !! mainpy_target ascii_lower ["out"] ["s"; "a.txt"] = Some (ex_file 1).
Proof.
  intros s0. split; [vm_compute; reflexivity|].
  apply mainpy_move_replaces_target; vm_compute; reflexivity.
Defined.

Lemma mainpy_dry_run_no_mutation_witness :
  let s0 := ex_state ex_fs_flat in
  let R := MainPy.organize ascii_lower ["s"] ["out"] true (Ok ex_listing_flat) s0 in
  fst R = Ok tt /\
  (st_fs (snd R) = st_fs s0 /\
   (fst R = Ok tt <-> is_dir (st_fs s0) ["s"] = true /\ exists es, Ok ex_listing_flat = Ok es) /\
   (is_dir (st_fs s0) ["s"] = false -> snd R = s0) /\
   (forall e, @Ok (list path) ex_listing_flat = Exc e -> snd R = s0)).
Proof.
  intros s0 R. split; [vm_compute; reflexivity|].
  apply (mainpy_dry_run_no_mutation ascii_lower ["s"] ["out"] (Ok ex_listing_flat) s0 (snd R) (fst R)).
  apply surjective_pairing.
Defined.

Lemma undo_non_utf8_log_raises_witness :
  let s0 := ex_state (<[["log.json"] := File (mkFile 9 4 NotUtf8)]> ex_fs_flat) in
  undo_operations ["log.json"] false s0 = (Exc UnicodeDecodeError, s0).
Proof.
  intros s0. apply (undo_non_utf8_log_raises _ _ (mkFile 9 4 NotUtf8)); vm_compute; reflexivity.
Defined.

Lemma undo_non_object_record_raises_witness :
  let log := JObj [("operations", JArr [JStr "/s/a.txt"])] in
  let s0 := ex_state (<[["log.json"] := File (mkFile 9 100 (JsonText log))]> ex_fs_flat) in
  undo_operations ["log.json"] true s0 = (Exc TypeError, s0).
Proof.
  intros log s0. apply (undo_non_object_record_raises _ _ log [] (JStr "/s/a.txt")).
  - vm_compute. reflexivity.
  - vm_compute. reflexivity.
  - discriminate.
Defined.
